(** * FinSightAI-pro: the Reports page (frontend/src/pages/Reports.js)

    A shallow embedding of the compute pipeline of the Reports page
    (aggregation, chart projections, PDF layout, fetch and period selection)
    and the properties of it that the specification states.

    Numbers.  A JavaScript number is modelled as an exact rational or [NaN]:
    the model adds, subtracts and divides without rounding, and has no
    infinities.  What is proved of a sum is therefore proved of the sum as
    exact arithmetic has it.  Where rounding decides, the aggregation is
    run on IEEE 754 binary64 in the module [Binary64].

    Objects.  An object used as a map is the list of its own enumerable
    properties in the order they were created.  That is the order of
    [Object.entries] for the keys that [plain_key] admits: JavaScript
    enumerates array indices first, and the names of [Object.prototype]
    do not read as [undefined] on an empty object, so the statements about
    the order of the keys assume plain keys. *)

From Stdlib Require Import QArith Qcanon Qround Lqa Lia ZArith.
From Stdlib Require Import List String Ascii Bool Permutation Sorted.
From Stdlib Require PrimFloat Uint63.
Import ListNotations.

Open Scope string_scope.
Open Scope Qc_scope.

(* ================================================================= *)
(** ** The JavaScript values the page computes with *)

Module JS.

(** Numbers: an exact rational, or NaN. *)
Inductive number : Type :=
| Fin (q : Qc)
| NaN.

Definition of_Z (z : Z) : number := Fin (Q2Qc (inject_Z z)).
Definition of_nat (n : nat) : number := of_Z (Z.of_nat n).
Definition zero : number := of_Z 0.

(** [a + b] *)
Definition add (a b : number) : number :=
  match a, b with
  | Fin x, Fin y => Fin (x + y)
  | _, _ => NaN
  end.

(** [a - b] *)
Definition sub (a b : number) : number :=
  match a, b with
  | Fin x, Fin y => Fin (x - y)
  | _, _ => NaN
  end.

(** [a / b]; a zero divisor yields an infinity or NaN in JavaScript, both
    collapsed to [NaN] here. *)
Definition div (a b : number) : number :=
  match a, b with
  | Fin x, Fin y =>
      match Qccompare y 0 with
      | Eq => NaN
      | _ => Fin (x / y)
      end
  | _, _ => NaN
  end.

(** [a * b] *)
Definition mul (a b : number) : number :=
  match a, b with
  | Fin x, Fin y => Fin (x * y)
  | _, _ => NaN
  end.

Definition is_zero (q : Qc) : bool :=
  match Qccompare q 0 with Eq => true | _ => false end.

(** [v || d] for a property read [v]: [undefined], [0] and [NaN] are
    falsy. *)
Definition or_default (v : option number) (d : number) : number :=
  match v with
  | Some (Fin q) => if is_zero q then d else Fin q
  | Some NaN => d
  | None => d
  end.

(** [v > 0] as the sort uses the result of a comparator: [NaN] counts as
    [+0]. *)
Definition is_positive (v : number) : bool :=
  match v with
  | Fin q => match Qccompare q 0 with Gt => true | _ => false end
  | NaN => false
  end.

Definition is_NaN (v : number) : bool :=
  match v with NaN => true | Fin _ => false end.

(** *** parseFloat

    The longest prefix of the trimmed string that is a decimal literal
    (sign, digits, fraction, exponent).  The literal [Infinity] has no
    value in this number model and is read as [NaN]. *)

Definition is_white (c : ascii) : bool :=
  let n := nat_of_ascii c in
  ((n =? 32) || (n =? 9) || (n =? 10) || (n =? 11) || (n =? 12) || (n =? 13))%nat.

Fixpoint trim_start (s : string) : string :=
  match s with
  | String c r => if is_white c then trim_start r else s
  | EmptyString => s
  end.

Definition digit_of (c : ascii) : option Z :=
  let n := nat_of_ascii c in
  if ((48 <=? n) && (n <=? 57))%nat then Some (Z.of_nat (n - 48)) else None.

(** Reads a run of digits: the accumulated value, how many digits were
    read, and the rest of the string. *)
Fixpoint digits (s : string) (acc : Z) (count : nat) : Z * nat * string :=
  match s with
  | String c r =>
      match digit_of c with
      | Some d => digits r (10 * acc + d)%Z (S count)
      | None => (acc, count, s)
      end
  | EmptyString => (acc, count, s)
  end.

Definition sign_of (s : string) : bool * string :=
  match s with
  | String "-" r => (true, r)
  | String "+" r => (false, r)
  | _ => (false, s)
  end.

Definition exponent_of (s : string) : Z :=
  match s with
  | String c r =>
      if (Ascii.eqb c "e" || Ascii.eqb c "E")%bool then
        let (neg, r') := sign_of r in
        let '(e, n, _) := digits r' 0%Z 0%nat in
        match n with
        | O => 0%Z
        | S _ => if neg then (- e)%Z else e
        end
      else 0%Z
  | EmptyString => 0%Z
  end.

Definition pow10 (k : Z) : Qc :=
  if (0 <=? k)%Z then Q2Qc (inject_Z (10 ^ k))
  else 1 / Q2Qc (inject_Z (10 ^ (- k))).

Definition parseFloat (s : string) : number :=
  let (neg, s0) := sign_of (trim_start s) in
  let '(ip, ni, s1) := digits s0 0%Z 0%nat in
  let '(m, nf, s2) :=
    match s1 with
    | String "." r => digits r ip 0%nat
    | _ => (ip, 0%nat, s1)
    end in
  match (ni + nf)%nat with
  | O => NaN
  | S _ =>
      let e := (exponent_of s2 - Z.of_nat nf)%Z in
      let v := Q2Qc (inject_Z m) * pow10 e in
      Fin (if neg then - v else v)
  end.

(** *** Objects used as maps *)

Definition object (V : Type) : Type := list (string * V).

(** [o[k]] *)
Fixpoint get {V} (k : string) (o : object V) : option V :=
  match o with
  | [] => None
  | (k', v) :: o' => if String.eqb k k' then Some v else get k o'
  end.

(** [o[k] = v] for a key that is not an array index: an existing
    property keeps its place, a new one goes last. *)
Fixpoint set {V} (k : string) (v : V) (o : object V) : object V :=
  match o with
  | [] => [(k, v)]
  | (k', v') :: o' =>
      if String.eqb k k' then (k', v) :: o' else (k', v') :: set k v o'
  end.

Definition keys {V} (o : object V) : list string := map fst o.
Definition values {V} (o : object V) : list V := map snd o.
Definition entries {V} (o : object V) : list (string * V) := o.

(** *** Array.prototype.sort

    The sort is stable, so for a consistent comparator its result is fixed
    by the comparator alone; it is computed here by insertion.  [after x y]
    says that [x] has to come after [y]. *)

Section Sort.
Context {A : Type} (after : A -> A -> bool).

Fixpoint insert (x : A) (l : list A) : list A :=
  match l with
  | [] => [x]
  | y :: l' => if after x y then y :: insert x l' else x :: l
  end.

Definition sort (l : list A) : list A := fold_right insert [] l.
End Sort.

(** [arr.sort(cmp)]: [a] comes after [b] when [cmp(a, b) > 0]. *)
Definition sort_by {A} (cmp : A -> A -> number) : list A -> list A :=
  sort (fun a b => is_positive (cmp a b)).

(** [arr.sort()] on strings: order of the code units, which for the
    ASCII strings at hand is the order of the characters. *)
Definition sort_strings : list string -> list string :=
  sort (fun a b => String.ltb b a).


End JS.

Import JS.

(** Sum of a list of numbers, as the specification's [sum(...)]. *)
Definition sum_numbers (l : list number) : number := fold_right add zero l.

(** Structural equality of model numbers, decided by comparison. *)
Definition number_eqb (a b : number) : bool :=
  match a, b with
  | Fin x, Fin y => match Qccompare x y with Eq => true | _ => false end
  | NaN, NaN => true
  | _, _ => false
  end.

(* ================================================================= *)
(** ** Data model *)

(** One expense as the ledger service returns it, with the fields the
    aggregation and the document read.  [amount] is the raw field handed to
    [parseFloat]; an absent [description] is [None]. *)
Record Expense : Type := mkExpense {
  amount : string;
  category : string;
  date : string;
  description : option string
}.

Record ReportSummary : Type := mkReportSummary {
  totalSpent : number;
  categoryTotals : object number;
  dailyTotals : object number;
  transactionCount : nat;
  averageTransaction : number
}.

(** The summary set when a custom period has no complete range. *)
Definition emptySummary : ReportSummary :=
  {| totalSpent := zero;
     categoryTotals := [];
     dailyTotals := [];
     transactionCount := 0;
     averageTransaction := zero |}.

(** The three accumulators of the loop of [processReportData]. *)
Record Totals : Type := mkTotals {
  t_categoryTotals : object number;
  t_dailyTotals : object number;
  t_totalSpent : number
}.

(** An instance of the host's date rendering for the examples: the key that
    [new Date(d).toLocaleDateString()] gives for an ISO date [YYYY-MM-DD]
    under the en-US locale in UTC, such as [1/9/2024]. *)
Definition strip_zero (s : string) : string :=
  match s with
  | String "0" (String c r) => String c r
  | _ => s
  end.

Definition enUS_dateString (iso : string) : string :=
  strip_zero (substring 5 2 iso) ++ "/" ++ strip_zero (substring 8 2 iso)
    ++ "/" ++ substring 0 4 iso.

(** The period selector of the page; [tag] is the string the source uses. *)
Inductive Period : Type :=
| Today | Week | Month | LastMonth | Year | LastYear | Custom | All.

Definition tag (p : Period) : string :=
  match p with
  | Today => "today" | Week => "week" | Month => "month"
  | LastMonth => "lastMonth" | Year => "year" | LastYear => "lastYear"
  | Custom => "custom" | All => "all"
  end.

Definition is_custom (p : Period) : bool :=
  match p with Custom => true | _ => false end.

Definition is_all (p : Period) : bool :=
  match p with All => true | _ => false end.

Definition Period_eqb (p q : Period) : bool := String.eqb (tag p) (tag q).

(** A [Date] object, as milliseconds since the epoch. *)
Definition Date : Type := Z.

(** [new Date('2000-01-01')] *)
Definition date_2000_01_01 : Date := 946684800000%Z.

(** An object [{ startDate, endDate }]; [None] is [null]. *)
Record DateRange : Type := mkDateRange {
  startDate : option Date;
  endDate : option Date
}.

Record UserProfile : Type := mkUserProfile {
  createdAt : option Date;
  currency : string
}.

(** [d1 && d2] on two nullable dates. *)
Definition both_set (r : DateRange) : bool :=
  match startDate r, endDate r with
  | Some _, Some _ => true
  | _, _ => false
  end.

(** What an [ApiService] call settles to: a value ([None] for [null] or
    [undefined]) or a rejection. *)
Inductive Response (A : Type) : Type :=
| resolved (v : option A)
| rejected (err : string).
Arguments resolved {A} v.
Arguments rejected {A} err.

(** [response || []] *)
Definition or_empty {A} (v : option (list A)) : list A :=
  match v with Some l => l | None => [] end.

(** Labels and data of the first dataset of a chart. *)
Record ChartData (V : Type) : Type := mkChartData {
  labels : list string;
  data : list V
}.
Arguments mkChartData {V} labels data.
Arguments labels {V} c.
Arguments data {V} c.

(** [reportData] starts as [{}] ([None]) and then holds a summary. *)
Definition ReportData : Type := option ReportSummary.

(** [reportData.categoryTotals || {}] *)
Definition categoryTotals_or_empty (rd : ReportData) : object number :=
  match rd with Some r => categoryTotals r | None => [] end.

(** [reportData.dailyTotals || {}] *)
Definition dailyTotals_or_empty (rd : ReportData) : object number :=
  match rd with Some r => dailyTotals r | None => [] end.

(* ================================================================= *)
(** ** The jsPDF document *)

(** What a [pdf.text] call prints.  Literal strings of the source are
    [Lit]; the others are built by the host's formatters ([formatCurrency],
    [toLocaleDateString], the [Date] getters) from the values kept here. *)
Inductive Text : Type :=
| Lit (s : string)
| PeriodLine (p : Period) (from to : Date)
| TotalSpentLine (v : option number)
| TotalTransactionsLine (n : option nat)
| AverageTransactionLine (v : option number)
| CategoryLine (name : string) (total : number)
| AmountCell (raw : string)
| DateCell (raw : string).

(** The calls that put something on a page; the calls that only choose a
    font or a colour are left out. *)
Inductive Draw : Type :=
| addImage (x y w h : Qc)
| text (t : Text) (x y : Qc)
| rect (x y w h : Qc)
| line (x1 y1 x2 y2 : Qc).

(** A document: how many pages it has (drawing goes to the last one) and
    the calls made so far, each with the page it went to. *)
Record Pdf : Type := mkPdf {
  pageCount : nat;
  calls : list (nat * Draw)
}.

(** [new jsPDF()] *)
Definition new_jsPDF : Pdf := {| pageCount := 1; calls := [] |}.

(** The document under construction together with the cursor [yPos]. *)
Record Layout : Type := mkLayout {
  pdf : Pdf;
  yPos : Qc
}.

Definition Q_ (z : Z) : Qc := Q2Qc (inject_Z z).

(** A step of the layout; steps are chained with [;;]. *)
Definition Step : Type := Layout -> Layout.

Definition seq (a b : Step) : Step := fun s => b (a s).
Notation "a ;; b" := (seq a b) (at level 61, right associativity).

Definition skip : Step := fun s => s.

(** Runs the step built from the current [yPos]. *)
Definition atY (f : Qc -> Step) : Step := fun s => f (yPos s) s.

Definition draw (d : Draw) : Step := fun s =>
  {| pdf := {| pageCount := pageCount (pdf s);
               calls := calls (pdf s) ++ [(pageCount (pdf s), d)] |};
     yPos := yPos s |}.

(** [yPos += dy] *)
Definition advance (dy : Z) : Step := fun s =>
  {| pdf := pdf s; yPos := yPos s + Q_ dy |}.

(** [yPos = y] *)
Definition setY (y : Qc) : Step := fun s => {| pdf := pdf s; yPos := y |}.

(** [pdf.addPage()] *)
Definition addPage : Step := fun s =>
  {| pdf := {| pageCount := S (pageCount (pdf s)); calls := calls (pdf s) |};
     yPos := yPos s |}.

Definition when (b : bool) (a : Step) : Step := if b then a else skip.

(** [if (yPos > 270) { pdf.addPage(); yPos = 20; }] *)
Definition breakIfPast270 : Step :=
  atY (fun y => when (if Qclt_le_dec (Q_ 270) y then true else false)
                     (addPage ;; setY (Q_ 20))).

(** Truncation toward zero. *)
Definition trunc (a : Qc) : Z :=
  if Qclt_le_dec a 0 then Qceiling a else Qfloor a.

(** [(yPos / 7) % 2 < 1] *)
Definition banded (y : Qc) : bool :=
  let a := y / Q_ 7 in
  let r := a - Q_ 2 * Q_ (trunc (a / Q_ 2)) in
  if Qclt_le_dec r 1 then true else false.

(** The height of a page: [new jsPDF()] makes A4 pages, measured in
    millimetres. *)
Definition a4_height : Qc := Q_ 297.

(** The natural size of the logo once loaded, or the failure to load it. *)
Inductive ImageEvent : Type :=
| loaded (width height : positive)
| failed.

(** The handlers set on an image. *)
Record ImageHandlers (R : Type) : Type := mkImageHandlers {
  onload : option (positive -> positive -> R);
  onerror : option R
}.
Arguments onload {R} i.
Arguments onerror {R} i.

(** The browser runs the handler set for the event, if there is one. *)
Definition fire {R} (h : ImageHandlers R) (ev : ImageEvent) : option R :=
  match ev with
  | loaded w hgt => option_map (fun f => f w hgt) (onload h)
  | failed => onerror h
  end.

(** How the finished document leaves the page. *)
Inductive Delivery : Type :=
| writtenToDocuments (filename : string)
| saved (filename : string).

(** What running the load handler comes to: it ends in a delivery, or an
    exception leaves it with the document as far as it got. *)
Inductive Export : Type :=
| exported (doc : Pdf) (d : Delivery)
| thrown (doc : Pdf).

Record Platform : Type := mkPlatform {
  isNativePlatform : bool;
  writeFileSucceeds : bool
}.

(* ================================================================= *)
(** ** The component [Reports] *)

Section Reports.

(** The host and the imported helpers the component closes over. *)

(** The element type of what [ApiService.getBudgets] returns. *)
Variable Budget : Type.
(** [new Date(d).toLocaleDateString()]: depends on locale and time zone. *)
Variable toLocaleDateString : string -> string.
(** [expenseCategories[cat]?.name] of utils/helpers. *)
Variable expenseCategories : string -> option string.
(** [getDateRange(period)] of utils/helpers; the clock it reads is its
    first argument here. *)
Variable getDateRange : Date -> Period -> DateRange.
(** [d.toISOString().split('T')[0]] *)
Variable toISODate : Date -> string.
(** [pdf.internal.pageSize.getWidth()] *)
Variable pageWidth : Qc.
(** [useUser().userProfile] *)
Variable userProfile : UserProfile.

(** *** State of the component ([useState], [useErrorHandler]) *)

Record State : Type := mkState {
  loading : bool;
  period : Period;
  customDate : DateRange;
  expenses : list Expense;
  budgets : list Budget;
  reportData : ReportData;
  error : option string
}.

Definition initialState : State :=
  {| loading := true;
     period := Month;
     customDate := {| startDate := None; endDate := None |};
     expenses := [];
     budgets := [];
     reportData := None;
     error := None |}.

Definition setLoading (b : bool) (s : State) : State :=
  mkState b (period s) (customDate s) (expenses s) (budgets s)
          (reportData s) (error s).
Definition setPeriod (p : Period) (s : State) : State :=
  mkState (loading s) p (customDate s) (expenses s) (budgets s)
          (reportData s) (error s).
Definition setCustomDate (r : DateRange) (s : State) : State :=
  mkState (loading s) (period s) r (expenses s) (budgets s)
          (reportData s) (error s).
Definition setExpenses (l : list Expense) (s : State) : State :=
  mkState (loading s) (period s) (customDate s) l (budgets s)
          (reportData s) (error s).
Definition setBudgets (l : list Budget) (s : State) : State :=
  mkState (loading s) (period s) (customDate s) (expenses s) l
          (reportData s) (error s).
Definition setReportData (r : ReportSummary) (s : State) : State :=
  mkState (loading s) (period s) (customDate s) (expenses s) (budgets s)
          (Some r) (error s).
(** Modelled from the spec: [handleError] comes from utils/errorHandler,
    which is not among the sources.  A failure is "surfaced to the
    presentation layer for display": the error is kept in the state that
    [ErrorAlert] shows. *)
Definition handleError (err : string) (s : State) : State :=
  mkState (loading s) (period s) (customDate s) (expenses s) (budgets s)
          (reportData s) (Some err).

(** *** processReportData *)

(** [o[k] = (o[k] || 0) + amount] *)
Definition bump (k : string) (a : number) (o : object number) : object number :=
  set k (add (or_default (get k o) zero) a) o.

(** The body of [expenses.forEach]. *)
Definition accumulate (t : Totals) (expense : Expense) : Totals :=
  let a := parseFloat (amount expense) in
  {| t_totalSpent := add (t_totalSpent t) a;
     t_categoryTotals := bump (category expense) a (t_categoryTotals t);
     t_dailyTotals :=
       bump (toLocaleDateString (date expense)) a (t_dailyTotals t) |}.

Definition processReportData (expenses : list Expense) : ReportSummary :=
  let t := fold_left accumulate expenses
             {| t_categoryTotals := []; t_dailyTotals := [];
                t_totalSpent := zero |} in
  {| totalSpent := t_totalSpent t;
     categoryTotals := t_categoryTotals t;
     dailyTotals := t_dailyTotals t;
     transactionCount := List.length expenses;
     averageTransaction :=
       if (0 <? List.length expenses)%nat
       then div (t_totalSpent t) (of_nat (List.length expenses))
       else zero |}.

(** *** fetchReportData *)

Record Api : Type := mkApi {
  getExpenses : string -> string -> Response (list Expense);
  getBudgets : Response (list Budget)
}.

(** The [dateRange] of [fetchReportData] (lines 154-165). *)
Definition fetchDateRange (now : Date) (period : Period)
           (customDate : DateRange) : DateRange :=
  if is_all period then
    {| startDate := Some (match createdAt userProfile with
                          | Some d => d
                          | None => date_2000_01_01
                          end);
       endDate := Some (match endDate customDate with
                        | Some d => d
                        | None => now
                        end) |}
  else if is_custom period then
    {| startDate := startDate customDate; endDate := endDate customDate |}
  else getDateRange now period.

(** [seen] is the state of the render whose closure runs: [period] and
    [customDate] are read from it, while the setters act on the current
    state.  A rejection of either call, or a [null] date under
    [toISOString], lands in [catch]; [finally] clears [loading]. *)
Definition fetchReportData (seen : State) (now : Date) (api : Api)
  : State -> State := fun s0 =>
  let s := setLoading true s0 in
  if is_custom (period seen) && negb (both_set (customDate seen)) then
    setLoading false
      (setReportData emptySummary (setBudgets [] (setExpenses [] s)))
  else
    let dateRange := fetchDateRange now (period seen) (customDate seen) in
    let caught err := setLoading false (handleError err s) in
    match startDate dateRange, endDate dateRange with
    | Some from, Some to =>
        match getExpenses api (toISODate from) (toISODate to) with
        | rejected err => caught err
        | resolved expensesResponse =>
            match getBudgets api with
            | rejected err => caught err
            | resolved budgetsResponse =>
                setLoading false
                  (setReportData
                     (processReportData (or_empty expensesResponse))
                     (setBudgets (or_empty budgetsResponse)
                        (setExpenses (or_empty expensesResponse) s)))
            end
        end
    | _, _ => caught "TypeError"
    end.

(** *** Chart projections *)

(** [expenseCategories[cat]?.name || cat] *)
Definition categoryName (cat : string) : string :=
  match expenseCategories cat with
  | Some name => if String.eqb name "" then cat else name
  | None => cat
  end.

Definition getCategoryChartData (reportData : ReportData) : ChartData number :=
  let categories := keys (categoryTotals_or_empty reportData) in
  {| labels := map categoryName categories;
     data := values (categoryTotals_or_empty reportData) |}.

(** [data] holds what [reportData.dailyTotals[date]] reads, [None] being
    [undefined]. *)
Definition getDailyTrendData (reportData : ReportData)
  : ChartData (option number) :=
  let sortedDates := sort_strings (keys (dailyTotals_or_empty reportData)) in
  {| labels := sortedDates;
     data := map (fun date => get date (dailyTotals_or_empty reportData))
                 sortedDates |}.

(** The comparator [([,a], [,b]) => b - a]. *)
Definition byAmountDesc (x y : string * number) : number :=
  sub (snd y) (snd x).


(** *** exportToPDF *)

(** The [dateRange] of [exportToPDF] (lines 300-310). *)
Definition exportDateRange (now : Date) (period : Period)
           (customDate : DateRange) : DateRange :=
  if is_all period then
    {| startDate := Some (match createdAt userProfile with
                          | Some d => d
                          | None => date_2000_01_01
                          end);
       endDate := Some now |}
  else if is_custom period then
    {| startDate := startDate customDate; endDate := endDate customDate |}
  else getDateRange now period.

(** Logo size (lines 270-277): the longer side becomes 40, the other
    the ratio of the sides times 40.  The quotient and the product are
    exact here and rounded in the source. *)
Definition logoSize (width height : positive) : Qc * Qc :=
  let w := Q_ (Z.pos width) in
  let h := Q_ (Z.pos height) in
  if Qclt_le_dec h w
  then (Q_ 40, (h / w) * Q_ 40)
  else ((w / h) * Q_ 40, Q_ 40).

(** Logo and title (lines 278-286). *)
Definition titleBlock (logoWidth logoHeight : Qc) : Step :=
  draw (addImage (pageWidth / Q_ 2 - logoWidth / Q_ 2) (Q_ 10)
                 logoWidth logoHeight) ;;
  setY (Q_ 10 + logoHeight + Q_ 10) ;;
  atY (fun y => draw (text (Lit "FinSight AI - Expense Report")
                           (pageWidth / Q_ 2) y)) ;;
  advance 15.

(** The period line (lines 318-319). *)
Definition periodBlock (period : Period) (from to : Date) : Step :=
  atY (fun y => draw (text (PeriodLine period from to) (Q_ 20) y)) ;;
  advance 20.

(** Heading with its rule (lines 325-329 and 348-352). *)
Definition heading (title : string) : Step :=
  atY (fun y =>
    draw (text (Lit title) (Q_ 20) y) ;;
    draw (line (Q_ 20) (y + Q_ 2) (pageWidth - Q_ 20) (y + Q_ 2))) ;;
  advance 10.

(** The box of summary values (lines 332-342). *)
Definition summaryBox (reportData : ReportData) : Step :=
  atY (fun y =>
    draw (rect (Q_ 20) y (pageWidth - Q_ 40) (Q_ 24)) ;;
    draw (text (TotalSpentLine (option_map totalSpent reportData))
               (Q_ 25) (y + Q_ 8)) ;;
    draw (text (TotalTransactionsLine
                  (option_map transactionCount reportData))
               (Q_ 25) (y + Q_ 16)) ;;
    draw (text (AverageTransactionLine
                  (option_map averageTransaction reportData))
               (pageWidth / Q_ 2 + Q_ 10) (y + Q_ 8))) ;;
  advance 30.

(** [exp.description || '-'] *)
Definition descriptionOrDash (exp : Expense) : string :=
  match description exp with
  | Some d => if String.eqb d "" then "-" else d
  | None => "-"
  end.

(** One table row (lines 383-400). *)
Definition writeRow (exp : Expense) : Step :=
  atY (fun y =>
    when (banded y)
         (draw (rect (Q_ 25) (y - Q_ 2) (pageWidth - Q_ 50) (Q_ 7))) ;;
    draw (text (Lit (descriptionOrDash exp)) (Q_ 30) (y + Q_ 4)) ;;
    draw (text (AmountCell (amount exp)) (pageWidth / Q_ 2) (y + Q_ 4)) ;;
    draw (text (DateCell (date exp)) (pageWidth - Q_ 50) (y + Q_ 4))) ;;
  advance 8 ;;
  breakIfPast270.

(** [rows.forEach(writeRow)] *)
Definition writeRows (rows : list Expense) : Step :=
  fun s => fold_left (fun s exp => writeRow exp s) rows s.

(** Header bar and column titles of a category (lines 355-376). *)
Definition categoryHeader (category : string) (total : number) : Step :=
  atY (fun y =>
    draw (rect (Q_ 20) y (pageWidth - Q_ 40) (Q_ 12)) ;;
    draw (text (CategoryLine (categoryName category) total)
               (Q_ 25) (y + Q_ 9))) ;;
  advance 16 ;;
  atY (fun y =>
    draw (text (Lit "Description") (Q_ 30) y) ;;
    draw (text (Lit "Amount") (pageWidth / Q_ 2) y) ;;
    draw (text (Lit "Date") (pageWidth - Q_ 50) y)) ;;
  advance 6 ;;
  atY (fun y => draw (line (Q_ 25) y (pageWidth - Q_ 25) y)) ;;
  advance 2.

(** The body of [Object.entries(categoryTotals).forEach] (lines 354-406). *)
Definition writeCategory (expenses : list Expense)
           (entry : string * number) : Step :=
  let (cat, total) := entry in
  categoryHeader cat total ;;
  writeRows (filter (fun exp => String.eqb (category exp) cat) expenses) ;;
  advance 10 ;;
  breakIfPast270.

Definition writeCategories (expenses : list Expense)
           (categoryTotals : object number) : Step :=
  fun s => fold_left (fun s entry => writeCategory expenses entry s)
                     (entries categoryTotals) s.

(** [getFilenameDatePart()]; [None] when [toISOString] meets [null]. *)
Definition getFilenameDatePart (period : Period) (customDate : DateRange)
  : option string :=
  if is_custom period then
    match startDate customDate, endDate customDate with
    | Some from, Some to => Some (toISODate from ++ "_to_" ++ toISODate to)
    | _, _ => None
    end
  else if is_all period then Some "all-time"
  else Some (tag period).

(** Lines 426-449. *)
Definition deliver (platform : Platform) (filename : string) : Delivery :=
  if isNativePlatform platform then
    if writeFileSucceeds platform then writtenToDocuments filename
    else saved filename
  else saved filename.

(** The handler [logoImg.onload] (lines 269-450), run on the state [s]
    of the render that made it. *)
Definition onloadHandler (s : State) (now : Date) (platform : Platform)
           (width height : positive) : Export :=
  let (logoWidth, logoHeight) := logoSize width height in
  let l1 := titleBlock logoWidth logoHeight
              {| pdf := new_jsPDF; yPos := Q_ 20 |} in
  let dateRange := exportDateRange now (period s) (customDate s) in
  match startDate dateRange, endDate dateRange with
  | Some from, Some to =>
      let l2 := (periodBlock (period s) from to ;;
                 heading "Summary" ;;
                 summaryBox (reportData s) ;;
                 heading "Category Breakdown" ;;
                 writeCategories (expenses s)
                   (categoryTotals_or_empty (reportData s))) l1 in
      match getFilenameDatePart (period s) (customDate s) with
      | Some part =>
          exported (pdf l2)
            (deliver platform ("finsight-report-" ++ part ++ ".pdf"))
      | None => thrown (pdf l2)
      end
  | _, _ => thrown (pdf l1)
  end.

(** [exportToPDF]: a document is made and the load handler is set on the
    logo image; what happens next is up to the event the image fires.
    [None]: no handler ran. *)
Definition exportToPDF (s : State) (now : Date) (platform : Platform)
           (ev : ImageEvent) : option Export :=
  fire {| onload := Some (onloadHandler s now platform);
          onerror := None |} ev.

(** The category breakdown shown on the page (line 982):
    [Object.entries(reportData.categoryTotals).sort(([,a], [,b]) => b - a)]. *)
Definition breakdownOrder (reportData : ReportData) : list (string * number) :=
  sort_by byAmountDesc (entries (categoryTotals_or_empty reportData)).

(** *** The cards and the breakdown of the page *)

(** The Categories card (line 898):
    [Object.keys(reportData.categoryTotals || {}).length]. *)
Definition categoriesCard (reportData : ReportData) : nat :=
  List.length (keys (categoryTotals_or_empty reportData)).

(** The charts are shown when [expenses.length > 0] (line 910). *)
Definition chartsShown (expenses : list Expense) : bool :=
  (0 <? List.length expenses)%nat.

(** One line of the Category Breakdown (lines 984-1025): the name
    [(expenseCategories[category] || { name: category }).name], the amount
    and [(amount / reportData.totalSpent) * 100]. *)
Record BreakdownLine : Type := mkBreakdownLine {
  line_name : string;
  line_amount : number;
  line_percentage : number
}.

Definition breakdownLine (totalSpent : number) (entry : string * number)
  : BreakdownLine :=
  let (cat, amount) := entry in
  {| line_name := match expenseCategories cat with
                  | Some name => name
                  | None => cat
                  end;
     line_amount := amount;
     line_percentage := mul (div amount totalSpent) (of_Z 100) |}.

(** The Category Breakdown card (lines 975-1028); it is there only when
    there is a category, so [reportData] holds a summary. *)
Definition categoryBreakdown (reportData : ReportData) : list BreakdownLine :=
  match reportData with
  | Some summary =>
      map (breakdownLine (totalSpent summary)) (breakdownOrder reportData)
  | None => []
  end.

(** *** exportToCSVReport *)

(** [expense.notes]: the one field of an expense that only the CSV export
    reads; the record [Expense] leaves it out. *)
Variable notes : Expense -> option string.

(** A row of [csvData] (lines 466-472). *)
Record CsvRow : Type := mkCsvRow {
  csv_Date : string;
  csv_Description : option string;
  csv_Category : string;
  csv_Amount : string;
  csv_Notes : string
}.

Definition csvRow (expense : Expense) : CsvRow :=
  {| csv_Date := date expense;
     csv_Description := description expense;
     csv_Category := categoryName (category expense);
     csv_Amount := amount expense;
     csv_Notes := match notes expense with
                  | Some n => n
                  | None => ""
                  end |}.

(** What [exportToCSVReport] does: the alert that there is nothing to
    export, or the call of [exportToCSV] with its two arguments. *)
Inductive CsvExport : Type :=
| nothingToExport
| exportToCSV (csvData : list CsvRow) (filename : string).

Definition exportToCSVReport (s : State) (now : Date) : CsvExport :=
  match expenses s with
  | [] => nothingToExport
  | _ :: _ =>
      exportToCSV (map csvRow (expenses s))
        ("finsight-expenses-" ++ tag (period s) ++ "-" ++ toISODate now
           ++ ".csv")
  end.

(** *** What the user and the window can do *)

Inductive Event : Type :=
| selectPeriod (p : Period) (now : Date) (api : Api)
| pickStartDate (newValue : option Date)
| pickEndDate (newValue : option Date)
| applyCustomRange (now : Date) (api : Api)
| dataChanged (now : Date) (api : Api).

(** The effect on [period] (lines 90-101), run on the new render [s]. *)
Definition periodEffect (now : Date) (api : Api) (s : State) : State :=
  if negb (is_custom (period s)) then fetchReportData s now api s
  else if both_set (customDate s) then fetchReportData s now api s
  else s.

(** [handleDateSelectionComplete] (lines 104-108). *)
Definition handleDateSelectionComplete (now : Date) (api : Api)
           (s : State) : State :=
  if is_custom (period s) && both_set (customDate s)
  then fetchReportData s now api s
  else s.

(** One event.  The date pickers and the Apply button exist only while
    the period is custom.  The window listeners are set once, by the
    first render, so its [fetchReportData] is the one they run; the
    fetch of the mount effect is the same call. *)
Definition step (s : State) (ev : Event) : State :=
  match ev with
  | selectPeriod p now api =>
      let s1 := setPeriod p s in
      let s2 := if negb (is_custom p)
                then setCustomDate {| startDate := None; endDate := None |} s1
                else s1 in
      if Period_eqb p (period s) then s2 else periodEffect now api s2
  | pickStartDate newValue =>
      if is_custom (period s)
      then setCustomDate {| startDate := newValue;
                            endDate := endDate (customDate s) |} s
      else s
  | pickEndDate newValue =>
      if is_custom (period s)
      then setCustomDate {| startDate := startDate (customDate s);
                            endDate := newValue |} s
      else s
  | applyCustomRange now api =>
      if is_custom (period s) then handleDateSelectionComplete now api s
      else s
  | dataChanged now api => fetchReportData initialState now api s
  end.

Definition run (evs : list Event) : State := fold_left step evs initialState.

Inductive reachable : State -> Prop :=
| reachable_initial : reachable initialState
| reachable_step s ev : reachable s -> reachable (step s ev).

End Reports.

Arguments mkState {Budget}.
Arguments loading {Budget} s.
Arguments period {Budget} s.
Arguments customDate {Budget} s.
Arguments expenses {Budget} s.
Arguments budgets {Budget} s.
Arguments reportData {Budget} s.
Arguments error {Budget} s.
Arguments mkApi {Budget}.
Arguments getExpenses {Budget} a.
Arguments getBudgets {Budget} a.
Arguments initialState {Budget}.
Arguments fetchReportData {Budget}.
Arguments exportToPDF {Budget}.
Arguments onloadHandler {Budget}.
Arguments step {Budget}.
Arguments run {Budget}.
Arguments reachable {Budget}.
Arguments periodEffect {Budget}.
Arguments handleDateSelectionComplete {Budget}.
Arguments selectPeriod {Budget}.
Arguments pickStartDate {Budget}.
Arguments pickEndDate {Budget}.
Arguments applyCustomRange {Budget}.
Arguments dataChanged {Budget}.
Arguments setLoading {Budget}.
Arguments setPeriod {Budget}.
Arguments setCustomDate {Budget}.
Arguments setExpenses {Budget}.
Arguments setBudgets {Budget}.
Arguments setReportData {Budget}.
Arguments handleError {Budget}.
Arguments exportToCSVReport {Budget}.

(* ================================================================= *)
(** ** The aggregation on binary64

    [processReportData] once more, on the numbers JavaScript computes
    with: IEEE 754 binary64, every operation rounded to nearest.  The loop
    is the one above; only the arithmetic differs. *)

Module Binary64.

Definition number : Type := PrimFloat.float.

(** A natural number as a double; exact below 2^53. *)
Definition of_Z (z : Z) : number := PrimFloat.of_uint63 (Uint63.of_Z z).
Definition of_nat (n : nat) : number := of_Z (Z.of_nat n).
Definition zero : number := of_Z 0.

(** [v || d] for a property read [v]: [undefined], [0], [-0] and [NaN]
    are falsy. *)
Definition or_default (v : option number) (d : number) : number :=
  match v with
  | Some x => if PrimFloat.is_nan x || PrimFloat.eqb x zero then d else x
  | None => d
  end.

(** [parseFloat] of a decimal literal: the digits as an integer, scaled
    by a power of ten in one rounded operation.  This is the nearest
    double, as JavaScript gives it, when the digits make an integer below
    2^53 and the power of ten is at most 10^22, which is so of amounts of
    money; no other literal is used below. *)
Definition parseFloat (s : string) : number :=
  let (neg, s0) := sign_of (trim_start s) in
  let '(ip, ni, s1) := digits s0 0%Z 0%nat in
  let '(m, nf, s2) :=
    match s1 with
    | String "." r => digits r ip 0%nat
    | _ => (ip, 0%nat, s1)
    end in
  match (ni + nf)%nat with
  | O => PrimFloat.nan
  | S _ =>
      let e := (exponent_of s2 - Z.of_nat nf)%Z in
      let v := if (0 <=? e)%Z
               then PrimFloat.mul (of_Z m) (of_Z (10 ^ e))
               else PrimFloat.div (of_Z m) (of_Z (10 ^ (- e))) in
      if neg then PrimFloat.opp v else v
  end.

Record ReportSummary : Type := mkReportSummary {
  totalSpent : number;
  categoryTotals : object number;
  dailyTotals : object number;
  transactionCount : nat;
  averageTransaction : number
}.

Record Totals : Type := mkTotals {
  t_categoryTotals : object number;
  t_dailyTotals : object number;
  t_totalSpent : number
}.

(** [o[k] = (o[k] || 0) + amount] *)
Definition bump (k : string) (a : number) (o : object number) : object number :=
  set k (PrimFloat.add (or_default (get k o) zero) a) o.

(** The body of [expenses.forEach]. *)
Definition accumulate (toLocaleDateString : string -> string)
           (t : Totals) (expense : Expense) : Totals :=
  let a := parseFloat (amount expense) in
  {| t_totalSpent := PrimFloat.add (t_totalSpent t) a;
     t_categoryTotals := bump (category expense) a (t_categoryTotals t);
     t_dailyTotals :=
       bump (toLocaleDateString (date expense)) a (t_dailyTotals t) |}.

Definition processReportData (toLocaleDateString : string -> string)
           (expenses : list Expense) : ReportSummary :=
  let t := fold_left (accumulate toLocaleDateString) expenses
             {| t_categoryTotals := []; t_dailyTotals := [];
                t_totalSpent := zero |} in
  {| totalSpent := t_totalSpent t;
     categoryTotals := t_categoryTotals t;
     dailyTotals := t_dailyTotals t;
     transactionCount := List.length expenses;
     averageTransaction :=
       if (0 <? List.length expenses)%nat
       then PrimFloat.div (t_totalSpent t) (of_nat (List.length expenses))
       else zero |}.




(** Every amount parses to a number. *)
Definition all_parse (es : list Expense) : bool :=
  forallb (fun e => negb (PrimFloat.is_nan (parseFloat (amount e)))) es.

End Binary64.

(* ================================================================= *)
(** ** Vocabulary of the properties *)

(** A record whose amount parses to a number. *)
Definition parsable (e : Expense) : Prop := parseFloat (amount e) <> NaN.

Definition parsableb (e : Expense) : bool :=
  negb (is_NaN (parseFloat (amount e))).

(** The parsed amounts of the records. *)
Definition amounts (es : list Expense) : list number :=
  map (fun e => parseFloat (amount e)) es.

(** Every property of the object holds a number. *)
Definition numbers_only (o : object number) : Prop :=
  Forall (fun kv => snd kv <> NaN) o.

(** One of the two maps after the loop over [es]: [key] picks the property
    a record is added to. *)
Definition bumpAll (key : Expense -> string) (es : list Expense)
           (o : object number) : object number :=
  fold_left (fun o e => bump (key e) (parseFloat (amount e)) o) es o.

(** The parsed amounts of the records filed under [k]. *)
Definition amounts_under (key : Expense -> string) (k : string)
           (es : list Expense) : list number :=
  amounts (filter (fun e => String.eqb (key e) k) es).

(** Some record is filed under [k]. *)
Definition mentions (key : Expense -> string) (k : string)
           (es : list Expense) : bool :=
  existsb (fun e => String.eqb (key e) k) es.

(** The strings of a list in the order they first appear, each once. *)
Fixpoint first_seen (l : list string) : list string :=
  match l with
  | [] => []
  | k :: rest =>
      k :: filter (fun k' => negb (String.eqb k' k)) (first_seen rest)
  end.

(** The raw amounts of the table rows of a document, in the order they
    were printed. *)
Definition printedAmounts (doc : Pdf) : list string :=
  flat_map (fun c => match snd c with
                     | text (AmountCell raw) _ _ => [raw]
                     | _ => []
                     end) (calls doc).

(** The aggregate the specification describes: a record with an unparsable
    amount is skipped, the count is the number of records kept and the
    total is their sum. *)
Definition skips_unparsable (summary : ReportSummary) (es : list Expense) : Prop :=
  transactionCount summary = List.length (filter parsableb es) /\
  totalSpent summary = sum_numbers (amounts (filter parsableb es)).

(** [a >= b] on numbers; it never holds of [NaN]. *)
Definition number_ge (a b : number) : Prop :=
  match a, b with
  | Fin x, Fin y => y <= x
  | _, _ => False
  end.

Definition has_amount (v : number) (e : string * number) : bool :=
  number_eqb (snd e) v.

(** The calendar date a key of the form [M/D/YYYY] names, as
    (year, month, day). *)
Definition number_of_digits (s : string) : option Z :=
  match digits s 0%Z 0%nat with
  | (v, S _, EmptyString) => Some v
  | _ => None
  end.

(** A key made of digits only.  The array indices, which JavaScript
    enumerates before all other keys and in numeric order, are among
    these. *)
Definition integer_like (k : string) : bool :=
  match number_of_digits k with
  | Some _ => true
  | None => false
  end.

(** The names every object inherits from [Object.prototype]: on an empty
    object they read as a function, or for [__proto__] as the prototype,
    and not as [undefined]. *)
Definition Object_prototype_names : list string :=
  ["constructor"; "hasOwnProperty"; "isPrototypeOf"; "propertyIsEnumerable";
   "toLocaleString"; "toString"; "valueOf"; "__proto__";
   "__defineGetter__"; "__defineSetter__"; "__lookupGetter__";
   "__lookupSetter__"].

(** A key under which an object used as a map behaves as one: a new key
    reads as [undefined] and is enumerated after the keys made before it. *)
Definition plain_key (k : string) : bool :=
  negb (integer_like k) && negb (existsb (String.eqb k) Object_prototype_names).

Fixpoint split_on (sep : ascii) (s : string) : list string :=
  match s with
  | EmptyString => [EmptyString]
  | String c r =>
      if Ascii.eqb c sep then EmptyString :: split_on sep r
      else match split_on sep r with
           | [] => [String c EmptyString]
           | w :: ws => String c w :: ws
           end
  end.

Definition calendarDate (key : string) : option (Z * Z * Z) :=
  match map number_of_digits (split_on "/" key) with
  | [Some m; Some d; Some y] => Some (y, m, d)
  | _ => None
  end.

(** [a] is an earlier day than [b], or the same. *)
Definition not_after (a b : Z * Z * Z) : bool :=
  let '(y1, m1, d1) := a in
  let '(y2, m2, d2) := b in
  ((y1 <? y2) || ((y1 =? y2) && ((m1 <? m2) || ((m1 =? m2) && (d1 <=? d2)))))%Z.

(** The keys are in ascending order as calendar dates. *)
Fixpoint chronological (keys : list string) : bool :=
  match keys with
  | a :: ((b :: _) as rest) =>
      match calendarDate a, calendarDate b with
      | Some da, Some db => not_after da db && chronological rest
      | _, _ => false
      end
  | _ => true
  end.

(** The category sections of a document, in the order they were drawn. *)
Definition sectionOrder (doc : Pdf) : list (string * number) :=
  flat_map (fun c => match snd c with
                     | text (CategoryLine name total) _ _ => [(name, total)]
                     | _ => []
                     end) (calls doc).

(** Where the table rows of a document were written: the page, and the
    cursor [yPos] at the time (the amount cell is printed at [yPos + 4]). *)
Definition rowCursors (doc : Pdf) : list (nat * Qc) :=
  flat_map (fun c => match snd c with
                     | text (AmountCell _) _ y => [(fst c, y - Q_ 4)]
                     | _ => []
                     end) (calls doc).

(** A step that moves the cursor down by [dy] without writing a table row
    and without adding a page. *)
Definition moves_by (dy : Z) (a : Step) : Prop :=
  forall l, yPos (a l) = yPos l + Q_ dy /\
            pageCount (pdf (a l)) = pageCount (pdf l) /\
            rowCursors (pdf (a l)) = rowCursors (pdf l).

(** The pagination rule of the specification: the cursor is tested before
    a row is written, so no row is written with the cursor past 270. *)
Definition checked_before_writing (doc : Pdf) : Prop :=
  Forall (fun r => snd r <= Q_ 270) (rowCursors doc).

(** The amounts are in descending order. *)
Fixpoint descending (l : list (string * number)) : bool :=
  match l with
  | a :: ((b :: _) as rest) =>
      negb (is_positive (sub (snd b) (snd a))) && descending rest
  | _ => true
  end.

(* ================================================================= *)
(** ** A host and some data for the examples *)

Module Demo.

Definition two_digits (n : Z) : string :=
  String (ascii_of_nat (48 + Z.to_nat (n / 10)))
    (String (ascii_of_nat (48 + Z.to_nat (n mod 10))) "").

Definition four_digits (n : Z) : string :=
  two_digits (n / 100) ++ two_digits (n mod 100).

(** [d.toISOString().split('T')[0]] for the years 0000 to 9999. *)
Definition toISODate (d : Date) : string :=
  let z := (d / 86400000 + 719468)%Z in
  let era := (z / 146097)%Z in
  let doe := (z - era * 146097)%Z in
  let yoe := ((doe - doe / 1460 + doe / 36524 - doe / 146096) / 365)%Z in
  let doy := (doe - (365 * yoe + yoe / 4 - yoe / 100))%Z in
  let mp := ((5 * doy + 2) / 153)%Z in
  let day := (doy - (153 * mp + 2) / 5 + 1)%Z in
  let m := (if mp <? 10 then mp + 3 else mp - 9)%Z in
  let y := (yoe + era * 400 + (if m <=? 2 then 1 else 0))%Z in
  four_digits y ++ "-" ++ two_digits m ++ "-" ++ two_digits day.

(** A stand-in for [getDateRange] of utils/helpers: the thirty days up to
    now, whatever the period. *)
Definition getDateRange (now : Date) (_ : Period) : DateRange :=
  {| startDate := Some (now - 30 * 86400000)%Z; endDate := Some now |}.

(** A catalog with one entry. *)
Definition expenseCategories (cat : string) : option string :=
  if String.eqb cat "food" then Some "Food & Dining" else None.

Definition userProfile : UserProfile :=
  {| createdAt := None; currency := "USD" |}.

Definition browser : Platform :=
  {| isNativePlatform := false; writeFileSucceeds := false |}.

(** A4 in millimetres. *)
Definition pageWidth : Qc := Q_ 210.

(** 2024-01-15T12:00:00Z *)
Definition now : Date := 1705320000000%Z.

Definition Budget : Type := string.

(** An amount that does not parse, and one that does. *)
Definition garbled : Expense :=
  {| amount := "abc"; category := "food"; date := "2024-01-09";
     description := Some "Lunch" |}.
Definition coffee : Expense :=
  {| amount := "5"; category := "food"; date := "2024-01-10";
     description := Some "Coffee" |}.
Definition bus : Expense :=
  {| amount := "2.50"; category := "transport"; date := "2024-01-10";
     description := None |}.

(** [n] records of one unit in category [cat]. *)
Definition items (cat : string) (n : nat) : list Expense :=
  repeat {| amount := "1"; category := cat; date := "2024-01-09";
            description := None |} n.

Definition aggregate : list Expense -> ReportSummary :=
  processReportData enUS_dateString.

(** The state after a fetch that returned [es]. *)
Definition showing (es : list Expense) : State Budget :=
  {| loading := false; period := Month;
     customDate := {| startDate := None; endDate := None |};
     expenses := es; budgets := [];
     reportData := Some (aggregate es); error := None |}.

Definition export (s : State Budget) (ev : ImageEvent) : option Export :=
  exportToPDF expenseCategories getDateRange toISODate pageWidth
              userProfile s now browser ev.

Definition document (s : State Budget) (ev : ImageEvent) : Pdf :=
  match export s ev with
  | Some (exported doc _) => doc
  | Some (thrown doc) => doc
  | None => new_jsPDF
  end.

(** Daily totals of the ninth and the tenth of January 2024, as the
    en-US locale names the days. *)
Definition twoDays : ReportData :=
  Some {| totalSpent := of_Z 12;
          categoryTotals := [("food", of_Z 12)];
          dailyTotals := [("1/9/2024", of_Z 5); ("1/10/2024", of_Z 7)];
          transactionCount := 2;
          averageTransaction := of_Z 6 |}.

(** The six categories of the specification's example. *)
Definition sixCategories : ReportData :=
  Some {| totalSpent := of_Z 119;
          categoryTotals := [("A", of_Z 50); ("B", of_Z 50); ("C", of_Z 10);
                             ("D", of_Z 5); ("E", of_Z 3); ("F", of_Z 1)];
          dailyTotals := [("1/9/2024", of_Z 119)];
          transactionCount := 6;
          averageTransaction := Fin (Q_ 119 / Q_ 6) |}.

(** Two records, the smaller category first. *)
Definition smallThenLarge : list Expense :=
  [ {| amount := "10"; category := "A"; date := "2024-01-09";
       description := Some "Pen" |};
    {| amount := "50"; category := "B"; date := "2024-01-10";
       description := Some "Shoes" |} ].


(** Ten, twenty and thirty cents. *)
Definition cents : list Expense :=
  [ {| amount := "0.1"; category := "food"; date := "2024-01-09";
       description := None |};
    {| amount := "0.2"; category := "food"; date := "2024-01-09";
       description := None |};
    {| amount := "0.3"; category := "food"; date := "2024-01-09";
       description := None |} ].

Definition aggregate64 : list Expense -> Binary64.ReportSummary :=
  Binary64.processReportData enUS_dateString.

(** An API that answers with [es], and one whose expense call fails. *)
Definition answering (es : list Expense) : Api Budget :=
  {| getExpenses := fun _ _ => resolved (Some es);
     getBudgets := resolved (Some []) |}.
Definition offline : Api Budget :=
  {| getExpenses := fun _ _ => rejected "Network Error";
     getBudgets := rejected "Network Error" |}.

Definition step' : State Budget -> Event Budget -> State Budget :=
  step enUS_dateString getDateRange toISODate userProfile.

Definition fetch' (seen : State Budget) (api : Api Budget)
  : State Budget -> State Budget :=
  fetchReportData enUS_dateString getDateRange toISODate userProfile
                  seen now api.

(** No expense carries notes. *)
Definition notes (_ : Expense) : option string := None.

(** The page once its first fetch has answered with a coffee and a bus
    fare, and then once a second fetch has failed. *)
Definition afterFirstFetch : State Budget :=
  step' initialState (dataChanged now (answering [coffee; bus])).
Definition afterFailedFetch : State Budget :=
  step' afterFirstFetch (dataChanged now offline).

End Demo.
(* ================================================================= *)
(** ** Arithmetic of the number model *)

Lemma add_comm (a b : number) : add a b = add b a.
Proof.
  destruct a as [x|], b as [y|]; simpl; trivial.
  f_equal. ring.
Qed.

Lemma add_assoc (a b c : number) : add a (add b c) = add (add a b) c.
Proof.
  destruct a as [x|], b as [y|], c as [z|]; simpl; trivial.
  f_equal. ring.
Qed.

Lemma add_zero_r (a : number) : add a zero = a.
Proof.
  destruct a as [x|]; trivial.
  unfold zero, of_Z, add. f_equal. apply Qcplus_0_r.
Qed.

Lemma add_zero_l (a : number) : add zero a = a.
Proof. rewrite add_comm. apply add_zero_r. Qed.

Lemma add_NaN_r (a : number) : add a NaN = NaN.
Proof. destruct a; reflexivity. Qed.

Lemma is_zero_true (q : Qc) : is_zero q = true -> q = 0.
Proof.
  unfold is_zero. destruct (Qccompare q 0) eqn:E; try discriminate.
  intros _. apply Qc_is_canon. apply Qeq_alt. exact E.
Qed.

(** On a property that holds a number, [o[k] || 0] is that number. *)
Lemma or_default_number (v : number) :
  v <> NaN -> or_default (Some v) zero = v.
Proof.
  destruct v as [q|]; [intros _ | congruence].
  simpl. destruct (is_zero q) eqn:E; trivial.
  apply is_zero_true in E. subst q. reflexivity.
Qed.

Lemma or_default_is_number (v : option number) : or_default v zero <> NaN.
Proof.
  destruct v as [[q|]|]; simpl; try discriminate.
  destruct (is_zero q); discriminate.
Qed.

Lemma add_number (a b : number) : a <> NaN -> b <> NaN -> add a b <> NaN.
Proof. destruct a, b; simpl; congruence. Qed.

Lemma number_eqb_eq (a b : number) : number_eqb a b = true <-> a = b.
Proof.
  destruct a as [x|], b as [y|]; simpl; split; try congruence.
  - destruct (Qccompare x y) eqn:E; try discriminate.
    intros _. f_equal. apply Qc_is_canon, Qeq_alt, E.
  - intros [= ->]. unfold Qccompare. now rewrite (proj1 (Qeq_alt _ _) (Qeq_refl y)).
Qed.

Lemma sum_numbers_cons (a : number) (l : list number) :
  sum_numbers (a :: l) = add a (sum_numbers l).
Proof. reflexivity. Qed.

Lemma sum_numbers_app (l1 l2 : list number) :
  sum_numbers (l1 ++ l2) = add (sum_numbers l1) (sum_numbers l2).
Proof.
  induction l1 as [|a l1 IH].
  - symmetry. apply add_zero_l.
  - rewrite <- app_comm_cons, !sum_numbers_cons, IH. apply add_assoc.
Qed.

Lemma sum_numbers_NaN (l : list number) :
  In NaN l -> sum_numbers l = NaN.
Proof.
  induction l as [|a l IH]; [intros []|].
  rewrite sum_numbers_cons.
  intros [-> | H]; trivial.
  rewrite IH by assumption. apply add_NaN_r.
Qed.


(** The running total of [fold_left] is the sum. *)
Lemma fold_left_add (l : list number) (a : number) :
  fold_left add l a = add a (sum_numbers l).
Proof.
  revert a; induction l as [|x l IH]; intros a.
  - symmetry. apply add_zero_r.
  - cbn [fold_left]. rewrite IH, sum_numbers_cons. symmetry. apply add_assoc.
Qed.

(** *** The rationals underneath *)

Lemma this_plus (x y : Qc) : (this (x + y) == this x + this y)%Q.
Proof. unfold Qcplus. cbn [this Q2Qc]. apply Qred_correct. Qed.

Lemma this_minus (x y : Qc) : (this (x - y) == this x - this y)%Q.
Proof.
  unfold Qcminus, Qcplus, Qcopp. cbn [this Q2Qc].
  rewrite !Qred_correct. reflexivity.
Qed.

Lemma this_mult (x y : Qc) : (this (x * y) == this x * this y)%Q.
Proof. unfold Qcmult. cbn [this Q2Qc]. apply Qred_correct. Qed.

Lemma this_div (x y : Qc) : (this (x / y) == this x / this y)%Q.
Proof.
  unfold Qcdiv, Qcmult, Qcinv. cbn [this Q2Qc].
  rewrite !Qred_correct. reflexivity.
Qed.

Lemma this_Q_ (z : Z) : (this (Q_ z) == inject_Z z)%Q.
Proof. unfold Q_. cbn [this Q2Qc]. apply Qred_correct. Qed.

(** Linear arithmetic on [Qc], done on the underlying [Q]. *)
Ltac qc_lra :=
  unfold Qcle, Qclt in *;
  change (this 0) with 0%Q in *;
  repeat match goal with
         | H : _ |- _ =>
             progress (rewrite ?this_plus, ?this_minus, ?this_Q_ in H)
         end;
  rewrite ?this_plus, ?this_minus, ?this_Q_;
  unfold inject_Z in *; lra.

Lemma Qc_add_sub (y : Qc) (z : Z) : y + Q_ z - Q_ z = y.
Proof. ring. Qed.


(* ================================================================= *)
(** ** Objects *)

Lemma get_set_same {V} (k : string) (v : V) (o : object V) :
  get k (set k v o) = Some v.
Proof.
  induction o as [|[k' v'] o IH]; simpl.
  - now rewrite String.eqb_refl.
  - destruct (String.eqb k k') eqn:E; simpl; rewrite E; trivial.
Qed.

Lemma get_set_other {V} (k k' : string) (v : V) (o : object V) :
  k <> k' -> get k (set k' v o) = get k o.
Proof.
  intros Hk. induction o as [|[k0 v0] o IH]; simpl.
  - apply String.eqb_neq in Hk. now rewrite Hk.
  - destruct (String.eqb k' k0) eqn:E; simpl.
    + apply String.eqb_eq in E. subst k0.
      apply String.eqb_neq in Hk. now rewrite Hk.
    + now rewrite IH.
Qed.

Lemma get_numbers_only (k : string) (o : object number) (v : number) :
  numbers_only o -> get k o = Some v -> v <> NaN.
Proof.
  induction 1 as [|[k' v'] o Hv Ho IH]; simpl; [discriminate|].
  destruct (String.eqb k k'); [intros [= <-]; exact Hv | exact IH].
Qed.

Lemma set_numbers_only (k : string) (v : number) (o : object number) :
  numbers_only o -> v <> NaN -> numbers_only (set k v o).
Proof.
  intros Ho Hv. induction Ho as [|[k' v'] o Hv' Ho IH]; simpl.
  - repeat constructor. exact Hv.
  - destruct (String.eqb k k'); constructor; trivial.
Qed.

Lemma bump_numbers_only (k : string) (a : number) (o : object number) :
  numbers_only o -> a <> NaN -> numbers_only (bump k a o).
Proof.
  intros Ho Ha. apply set_numbers_only; trivial.
  apply add_number; trivial. apply or_default_is_number.
Qed.



Lemma bumpAll_cons key e es o :
  bumpAll key (e :: es) o =
  bumpAll key es (bump (key e) (parseFloat (amount e)) o).
Proof. reflexivity. Qed.

Lemma bumpAll_numbers_only key es o :
  numbers_only o -> Forall parsable es -> numbers_only (bumpAll key es o).
Proof.
  intros Ho Hes. revert o Ho.
  induction Hes as [|e es He Hes IH]; intros o Ho; trivial.
  rewrite bumpAll_cons. apply IH. now apply bump_numbers_only.
Qed.


Lemma amounts_under_silent key k es :
  mentions key k es = false -> amounts_under key k es = [].
Proof.
  unfold mentions, amounts_under.
  induction es as [|e es IH]; simpl; trivial.
  destruct (String.eqb (key e) k); simpl; [discriminate | exact IH].
Qed.

(** What a key holds after the loop: untouched if no record is filed under
    it, else what it held (or 0) plus the amounts filed under it. *)
Lemma get_bumpAll key k es o :
  numbers_only o -> Forall parsable es ->
  get k (bumpAll key es o) =
  if mentions key k es
  then Some (add (or_default (get k o) zero)
                 (sum_numbers (amounts_under key k es)))
  else get k o.
Proof.
  intros Ho Hes. revert o Ho.
  induction Hes as [|e es He Hes IH]; intros o Ho; trivial.
  rewrite bumpAll_cons, IH by now apply bump_numbers_only.
  unfold mentions, amounts_under. cbn [existsb filter].
  fold (mentions key k es). fold (amounts_under key k es).
  destruct (String.eqb (key e) k) eqn:E.
  - apply String.eqb_eq in E. subst k. cbn [orb].
    unfold bump. rewrite !get_set_same.
    assert (Hv : add (or_default (get (key e) o) zero) (parseFloat (amount e)) <> NaN).
    { apply add_number; [apply or_default_is_number | exact He]. }
    rewrite or_default_number by exact Hv.
    destruct (mentions key (key e) es) eqn:M.
    + f_equal. unfold amounts. cbn [map]. fold (amounts (filter (fun e0 => String.eqb (key e0) (key e)) es)).
      rewrite sum_numbers_cons. symmetry. apply add_assoc.
    + unfold amounts at 1. cbn [map].
      fold (amounts (filter (fun e0 => String.eqb (key e0) (key e)) es)).
      fold (amounts_under key (key e) es).
      rewrite amounts_under_silent by exact M.
      rewrite sum_numbers_cons. f_equal. f_equal. symmetry. apply add_zero_r.
  - cbn [orb]. apply String.eqb_neq in E.
    unfold bump. rewrite get_set_other by congruence. reflexivity.
Qed.


(* ================================================================= *)
(** ** Aggregation *)

Section AggregatorFacts.

Variable toLocaleDateString : string -> string.

(** The loop keeps its three accumulators apart. *)
Lemma fold_accumulate (es : list Expense) (t : Totals) :
  fold_left (accumulate toLocaleDateString) es t =
  {| t_categoryTotals := bumpAll category es (t_categoryTotals t);
     t_dailyTotals := bumpAll (fun e => toLocaleDateString (date e)) es (t_dailyTotals t);
     t_totalSpent := fold_left add (amounts es) (t_totalSpent t) |}.
Proof.
  revert t. induction es as [|e es IH]; intros [c d s].
  - reflexivity.
  - cbn [fold_left]. rewrite IH. reflexivity.
Qed.

Lemma totalSpent_is_sum (es : list Expense) :
  totalSpent (processReportData toLocaleDateString es)
    = sum_numbers (amounts es).
Proof.
  unfold processReportData. cbn [totalSpent].
  rewrite fold_accumulate. cbn [t_totalSpent].
  rewrite fold_left_add. apply add_zero_l.
Qed.

Lemma categoryTotals_is_bumpAll (es : list Expense) :
  categoryTotals (processReportData toLocaleDateString es)
    = bumpAll category es [].
Proof.
  unfold processReportData. cbn [categoryTotals].
  now rewrite fold_accumulate.
Qed.

Lemma dailyTotals_is_bumpAll (es : list Expense) :
  dailyTotals (processReportData toLocaleDateString es)
    = bumpAll (fun e => toLocaleDateString (date e)) es [].
Proof.
  unfold processReportData. cbn [dailyTotals].
  now rewrite fold_accumulate.
Qed.


(** C1, as the code has it: no record is skipped.  The count is the
    length of the input and the total is the sum of all the parsed
    amounts, hence NaN as soon as one amount does not parse. *)
Theorem processReportData_skips_nothing (es : list Expense) :
  transactionCount (processReportData toLocaleDateString es)
    = List.length es /\
  totalSpent (processReportData toLocaleDateString es)
    = sum_numbers (amounts es) /\
  (Exists (fun e => parseFloat (amount e) = NaN) es ->
   totalSpent (processReportData toLocaleDateString es) = NaN).
Proof.
  split; [reflexivity|]. split; [apply totalSpent_is_sum|].
  intros H. rewrite totalSpent_is_sum. apply sum_numbers_NaN.
  apply Exists_exists in H. destruct H as (e & He & Hn).
  rewrite <- Hn. unfold amounts.
  apply (in_map (fun e => parseFloat (amount e))). exact He.
Qed.


End AggregatorFacts.

(** C1: a garbled amount is counted and turns the total into NaN; it is
    not skipped. *)
Lemma garbled_amount_is_not_skipped :
  ~ skips_unparsable (Demo.aggregate [Demo.garbled; Demo.coffee])
                     [Demo.garbled; Demo.coffee].
Proof.
  unfold skips_unparsable. intros [Hcount _].
  vm_compute in Hcount. discriminate.
Qed.

(** The same two records: the total is NaN. *)
Lemma garbled_amount_spoils_total :
  totalSpent (Demo.aggregate [Demo.garbled; Demo.coffee]) = NaN.
Proof.
  apply (proj2 (proj2 (processReportData_skips_nothing
                         enUS_dateString [Demo.garbled; Demo.coffee]))).
  apply Exists_cons_hd. reflexivity.
Defined.





(** C3, on binary64: amounts that parse, and still the total depends on
    the order of the records.  Ten, twenty and thirty cents add up to
    0.6000000000000001, and in the reverse order to 0.6. *)
Lemma rounding_breaks_permutation :
  Permutation Demo.cents (rev Demo.cents) /\
  Binary64.all_parse Demo.cents = true /\
  PrimFloat.eqb (Binary64.totalSpent (Demo.aggregate64 Demo.cents))
                (Binary64.totalSpent (Demo.aggregate64 (rev Demo.cents)))
  = false.
Proof.
  split; [apply Permutation_rev|]. split; vm_compute; reflexivity.
Qed.

(* ================================================================= *)
(** ** Sorting *)

Section SortFacts.

Context {A : Type} (after : A -> A -> bool).

Lemma insert_Permutation (x : A) (l : list A) :
  Permutation (insert after x l) (x :: l).
Proof.
  induction l as [|y l IH]; simpl; trivial.
  destruct (after x y); trivial.
  rewrite IH. apply perm_swap.
Qed.

Lemma sort_Permutation (l : list A) : Permutation (sort after l) l.
Proof.
  induction l as [|x l IH]; simpl; trivial.
  rewrite insert_Permutation. now constructor.
Qed.

(** Inserting [x] does not disturb a selection [p], as long as [x] never
    overtakes a selected element while being selected itself. *)
Lemma filter_insert (p : A -> bool) (x : A) (l : list A) :
  (forall y, In y l -> after x y = true -> p x = true -> p y = false) ->
  filter p (insert after x l) = filter p (x :: l).
Proof.
  induction l as [|y l IH]; intros H; trivial.
  cbn [insert]. destruct (after x y) eqn:E; trivial.
  cbn [filter]. rewrite IH by (intros z Hz; apply H; now right).
  cbn [filter]. destruct (p x) eqn:Px; trivial.
  now rewrite (H y (or_introl eq_refl) E eq_refl).
Qed.

Lemma filter_sort (p : A -> bool) (l : list A) :
  (forall x y, after x y = true -> p x = true -> p y = false) ->
  filter p (sort after l) = filter p l.
Proof.
  intros H. induction l as [|x l IH]; trivial.
  cbn [sort fold_right]. fold (sort after l).
  rewrite filter_insert by (intros y _; apply H).
  cbn [filter]. now rewrite IH.
Qed.

(** The result is sorted for a relation [R] that [after] decides and that
    is transitive on the elements at hand. *)
Lemma insert_sorted (R : A -> A -> Prop) (ok : A -> Prop) x l :
  (forall a b, ok a -> ok b -> after a b = true -> R b a) ->
  (forall a b, ok a -> ok b -> after a b = false -> R a b) ->
  (forall a b c, ok a -> ok b -> ok c -> R a b -> R b c -> R a c) ->
  ok x -> Forall ok l ->
  StronglySorted R l -> StronglySorted R (insert after x l).
Proof.
  intros Hyes Hno Htr Hx Hl Hs.
  induction Hs as [|y l Hs IH Hy]; cbn [insert].
  - repeat constructor.
  - inversion Hl as [|? ? Oy Ol]; subst.
    destruct (after x y) eqn:E.
    + constructor; [now apply IH|].
      apply (Permutation_Forall (Permutation_sym (insert_Permutation x l))).
      constructor; [now apply Hyes | exact Hy].
    + constructor; [now constructor|].
      constructor; [now apply Hno|].
      rewrite Forall_forall in *. intros z Hz.
      apply (Htr x y z); auto.
Qed.

Lemma sort_sorted (R : A -> A -> Prop) (ok : A -> Prop) l :
  (forall a b, ok a -> ok b -> after a b = true -> R b a) ->
  (forall a b, ok a -> ok b -> after a b = false -> R a b) ->
  (forall a b c, ok a -> ok b -> ok c -> R a b -> R b c -> R a c) ->
  Forall ok l -> StronglySorted R (sort after l).
Proof.
  intros Hyes Hno Htr. induction 1 as [|x l Hx Hl IH].
  - constructor.
  - cbn [sort fold_right]. fold (sort after l).
    apply (insert_sorted R ok); trivial.
    apply (Permutation_Forall (Permutation_sym (sort_Permutation l))), Hl.
Qed.

End SortFacts.

(* ================================================================= *)
(** ** Chart projections *)

(** [b - a > 0] says that [b] is the larger. *)
Lemma is_positive_sub (x y : Qc) :
  is_positive (sub (Fin y) (Fin x)) = true <-> x < y.
Proof.
  cbn [sub is_positive]. unfold Qccompare, Qclt.
  destruct (this (y - x) ?= this 0)%Q eqn:E; split; intros H;
    try discriminate; trivial.
  - apply Qeq_alt in E. rewrite this_minus in E. cbn in E. lra.
  - apply Qlt_alt in E. rewrite this_minus in E. cbn in E. lra.
  - apply Qgt_alt in E. rewrite this_minus in E. cbn in E. lra.
Qed.

Section ChartFacts.

Variable expenseCategories : string -> option string.


(** The values of the daily trend are read at the sorted keys, one for
    one, and the keys are those of the object. *)
Lemma getDailyTrendData_aligned (reportData : ReportData) :
  data (getDailyTrendData reportData)
    = map (fun date => get date (dailyTotals_or_empty reportData))
          (labels (getDailyTrendData reportData)) /\
  Permutation (labels (getDailyTrendData reportData))
              (keys (dailyTotals_or_empty reportData)).
Proof. split; [reflexivity | apply sort_Permutation]. Qed.

End ChartFacts.


(** C4: with the keys [1/9/2024] and [1/10/2024] the tenth of January comes
    out before the ninth: the keys are ordered as strings, and the values
    follow them. *)
Theorem getDailyTrendData_orders_keys_as_strings :
  labels (getDailyTrendData Demo.twoDays) = ["1/10/2024"; "1/9/2024"] /\
  data (getDailyTrendData Demo.twoDays) = [Some (of_Z 7); Some (of_Z 5)] /\
  chronological (keys (dailyTotals_or_empty Demo.twoDays)) = true /\
  chronological (labels (getDailyTrendData Demo.twoDays)) = false.
Proof. repeat split. Qed.

(* ================================================================= *)
(** ** Layout of the document *)

(** The logo is at most 40 high and has a positive height. *)
Lemma logoSize_height (width height : positive) :
  0 < snd (logoSize width height) /\ snd (logoSize width height) <= Q_ 40.
Proof.
  unfold logoSize.
  destruct (Qclt_le_dec (Q_ (Z.pos height)) (Q_ (Z.pos width))) as [L|L];
    cbn [snd]; [|split; qc_lra].
  unfold Qclt, Qcle in *.
  rewrite this_mult, this_div, !this_Q_ in *. cbn [this Q2Qc].
  assert (Hh : (0 < inject_Z (Z.pos height))%Q) by (unfold inject_Z, Qlt; simpl; lia).
  assert (Hw : (0 < inject_Z (Z.pos width))%Q) by (unfold inject_Z, Qlt; simpl; lia).
  set (h := inject_Z (Z.pos height)) in *. set (w := inject_Z (Z.pos width)) in *.
  assert (D0 : (0 < h / w)%Q) by (apply Qlt_shift_div_l; lra).
  assert (D1 : (h / w <= 1)%Q) by (apply Qle_shift_div_r; lra).
  unfold inject_Z. split; cbn; lra.
Qed.

Ltac qc_eq :=
  apply Qc_is_canon;
  rewrite ?this_plus, ?this_minus, ?this_Q_; unfold inject_Z; lra.

Lemma rowCursors_draw (d : Draw) (l : Layout) :
  rowCursors (pdf (draw d l)) =
  (rowCursors (pdf l) ++
     match d with
     | text (AmountCell _) _ y => [(pageCount (pdf l), y - Q_ 4)]
     | _ => []
     end)%list.
Proof.
  unfold rowCursors, draw. cbn [pdf calls].
  rewrite flat_map_app. cbn [flat_map snd fst]. now rewrite app_nil_r.
Qed.

Lemma pageCount_draw (d : Draw) (l : Layout) :
  pageCount (pdf (draw d l)) = pageCount (pdf l).
Proof. reflexivity. Qed.

Lemma yPos_draw (d : Draw) (l : Layout) : yPos (draw d l) = yPos l.
Proof. reflexivity. Qed.

(** Unfolds the combinators of a block and simplifies what the drawing
    calls leave of the three observations. *)
Ltac layout :=
  unfold seq, atY, advance, setY, skip;
  repeat (progress (cbn [pdf yPos pageCount calls];
                    rewrite ?rowCursors_draw, ?pageCount_draw, ?yPos_draw,
                            ?app_nil_r)).

Section LayoutFacts.

Variable expenseCategories : string -> option string.
Variable pageWidth : Qc.

Lemma moves_by_seq (a b : Step) (m n : Z) :
  moves_by m a -> moves_by n b -> moves_by (m + n) (a ;; b).
Proof.
  intros Ha Hb l. unfold seq.
  destruct (Ha l) as (A1 & A2 & A3), (Hb (a l)) as (B1 & B2 & B3).
  rewrite B1, B2, B3, A1, A2, A3. repeat split.
  apply Qc_is_canon. rewrite !this_plus, !this_Q_, inject_Z_plus. lra.
Qed.

Lemma periodBlock_moves (p : Period) (from to : Date) :
  moves_by 20 (periodBlock p from to).
Proof. intros l. unfold periodBlock. layout. repeat split. Qed.

Lemma heading_moves (title : string) : moves_by 10 (heading pageWidth title).
Proof. intros l. unfold heading. layout. repeat split. Qed.

Lemma summaryBox_moves (reportData : ReportData) :
  moves_by 30 (summaryBox pageWidth reportData).
Proof. intros l. unfold summaryBox. layout. repeat split. Qed.

Lemma categoryHeader_moves (cat : string) (total : number) :
  moves_by 24 (categoryHeader expenseCategories pageWidth cat total).
Proof.
  intros l. unfold categoryHeader. layout. repeat split. qc_eq.
Qed.

End LayoutFacts.

(** *** The page break *)

Lemma breakIfPast270_cases (l : Layout) :
  (yPos l <= Q_ 270 /\ breakIfPast270 l = l) \/
  (Q_ 270 < yPos l /\
   breakIfPast270 l =
   {| pdf := {| pageCount := S (pageCount (pdf l)); calls := calls (pdf l) |};
      yPos := Q_ 20 |}).
Proof.
  unfold breakIfPast270, atY, when.
  destruct (Qclt_le_dec (Q_ 270) (yPos l)) as [H|H]; [right | left];
    split; trivial.
Qed.

Lemma breakIfPast270_yPos (l : Layout) : yPos (breakIfPast270 l) <= Q_ 270.
Proof.
  destruct (breakIfPast270_cases l) as [[H ->] | [H ->]]; trivial.
  cbn [yPos]. qc_lra.
Qed.

Lemma breakIfPast270_rows (l : Layout) :
  rowCursors (pdf (breakIfPast270 l)) = rowCursors (pdf l).
Proof.
  destruct (breakIfPast270_cases l) as [[H ->] | [H ->]]; reflexivity.
Qed.

(** Pages are only ever added; if none was, the cursor was not reset. *)
Lemma breakIfPast270_pages (l : Layout) :
  (pageCount (pdf l) <= pageCount (pdf (breakIfPast270 l)))%nat /\
  (pageCount (pdf (breakIfPast270 l)) = pageCount (pdf l) ->
   yPos (breakIfPast270 l) = yPos l).
Proof.
  destruct (breakIfPast270_cases l) as [[H ->] | [H ->]];
    cbn [pdf pageCount yPos]; split; intros; trivial; lia.
Qed.

Section RowFacts.

Variable expenseCategories : string -> option string.
Variable pageWidth : Qc.

(** The row is written where the cursor stands, on the current page;
    the test against 270 comes after it. *)
Lemma writeRow_rows (exp : Expense) (l : Layout) :
  rowCursors (pdf (writeRow pageWidth exp l))
  = (rowCursors (pdf l) ++ [(pageCount (pdf l), yPos l)])%list.
Proof.
  unfold writeRow. unfold seq at 1 5. rewrite breakIfPast270_rows.
  unfold when. layout. destruct (banded (yPos l)); layout;
    rewrite Qc_add_sub; reflexivity.
Qed.

Lemma writeRow_yPos (exp : Expense) (l : Layout) :
  yPos (writeRow pageWidth exp l) <= Q_ 270.
Proof. unfold writeRow. unfold seq at 1 5. apply breakIfPast270_yPos. Qed.

Lemma writeRow_pages (exp : Expense) (l : Layout) :
  (pageCount (pdf l) <= pageCount (pdf (writeRow pageWidth exp l)))%nat /\
  (pageCount (pdf (writeRow pageWidth exp l)) = pageCount (pdf l) ->
   yPos (writeRow pageWidth exp l) = yPos l + Q_ 8).
Proof.
  unfold writeRow. unfold seq at 1 5.
  match goal with |- context [breakIfPast270 ?x] => set (l' := x) end.
  assert (P : pageCount (pdf l') = pageCount (pdf l))
    by (subst l'; unfold when; layout; destruct (banded (yPos l)); layout;
        reflexivity).
  assert (Y : yPos l' = yPos l + Q_ 8)
    by (subst l'; unfold when; layout; destruct (banded (yPos l)); layout;
        reflexivity).
  destruct (breakIfPast270_pages l') as [H1 H2].
  rewrite <- P, <- Y. split; trivial.
Qed.

Lemma writeRows_cons (exp : Expense) (rows : list Expense) (l : Layout) :
  writeRows pageWidth (exp :: rows) l
  = writeRows pageWidth rows (writeRow pageWidth exp l).
Proof. unfold writeRows. cbn [fold_left]. reflexivity. Qed.

(** Rows written from a cursor within the margin stay within it. *)
Lemma writeRows_within (rows : list Expense) (l : Layout) :
  yPos l <= Q_ 270 ->
  yPos (writeRows pageWidth rows l) <= Q_ 270 /\
  exists new,
    rowCursors (pdf (writeRows pageWidth rows l))
      = (rowCursors (pdf l) ++ new)%list /\
    Forall (fun r => snd r <= Q_ 270) new.
Proof.
  revert l. induction rows as [|exp rows IH]; intros l Hl.
  - split; trivial. exists []. now rewrite app_nil_r.
  - rewrite writeRows_cons.
    destruct (IH (writeRow pageWidth exp l) (writeRow_yPos exp l))
      as (Hy & new & Hr & Hn).
    split; trivial.
    exists ((pageCount (pdf l), yPos l) :: new). split.
    + rewrite Hr, writeRow_rows, <- app_assoc. reflexivity.
    + constructor; trivial.
Qed.

(** The first row of a run is written wherever the cursor stands; the
    rows after it are written within the margin. *)
Lemma writeRows_rows (exp : Expense) (rows : list Expense) (l : Layout) :
  yPos (writeRows pageWidth (exp :: rows) l) <= Q_ 270 /\
  exists rest,
    rowCursors (pdf (writeRows pageWidth (exp :: rows) l))
      = (rowCursors (pdf l) ++ (pageCount (pdf l), yPos l) :: rest)%list /\
    Forall (fun r => snd r <= Q_ 270) rest.
Proof.
  rewrite writeRows_cons.
  destruct (writeRows_within rows (writeRow pageWidth exp l)
              (writeRow_yPos exp l)) as (Hy & rest & Hr & Hn).
  split; trivial. exists rest. split; trivial.
  rewrite Hr, writeRow_rows, <- app_assoc. reflexivity.
Qed.

Lemma writeRows_pages (rows : list Expense) (l : Layout) :
  (pageCount (pdf l) <= pageCount (pdf (writeRows pageWidth rows l)))%nat /\
  (pageCount (pdf (writeRows pageWidth rows l)) = pageCount (pdf l) ->
   yPos (writeRows pageWidth rows l)
     = yPos l + Q_ (8 * Z.of_nat (List.length rows))).
Proof.
  revert l. induction rows as [|exp rows IH]; intros l.
  - split; trivial. intros _. cbn. qc_eq.
  - rewrite writeRows_cons.
    destruct (IH (writeRow pageWidth exp l)) as [I1 I2].
    destruct (writeRow_pages exp l) as [R1 R2].
    split; [lia|]. intros E.
    rewrite I2, R2 by lia.
    apply Qc_is_canon. rewrite !this_plus, !this_Q_.
    cbn [List.length]. rewrite Nat2Z.inj_succ.
    replace (8 * Z.succ (Z.of_nat (List.length rows)))%Z
      with (8 + 8 * Z.of_nat (List.length rows))%Z by lia.
    rewrite inject_Z_plus. ring.
Qed.

End RowFacts.

Lemma seq_apply (a b : Step) (l : Layout) : (a ;; b) l = b (a l).
Proof. reflexivity. Qed.

Section CategoryFacts.

Variable expenseCategories : string -> option string.
Variable pageWidth : Qc.

(** A category begun within the margin has its rows written at 294 at
    most, and leaves the cursor within the margin. *)
Lemma writeCategory_within (expenses : list Expense)
      (entry : string * number) (l : Layout) :
  yPos l <= Q_ 270 ->
  Forall (fun r => snd r <= Q_ 294) (rowCursors (pdf l)) ->
  yPos (writeCategory expenseCategories pageWidth expenses entry l)
    <= Q_ 270 /\
  Forall (fun r => snd r <= Q_ 294)
    (rowCursors
       (pdf (writeCategory expenseCategories pageWidth expenses entry l))).
Proof.
  intros Hy Hr. destruct entry as [cat total]. unfold writeCategory.
  rewrite !seq_apply. split; [apply breakIfPast270_yPos|].
  rewrite breakIfPast270_rows.
  destruct (categoryHeader_moves expenseCategories pageWidth cat total l)
    as (H1 & _ & H3).
  set (l1 := categoryHeader expenseCategories pageWidth cat total l) in *.
  change (rowCursors (pdf (advance 10 ?x))) with (rowCursors (pdf x)).
  destruct (filter (fun exp => String.eqb (category exp) cat) expenses)
    as [|exp rows].
  - change (writeRows pageWidth [] l1) with l1. now rewrite H3.
  - destruct (writeRows_rows pageWidth exp rows l1) as (_ & rest & -> & Hn).
    rewrite H3. apply Forall_app. split; trivial.
    constructor.
    + cbn [snd]. rewrite H1. qc_lra.
    + eapply Forall_impl; [|exact Hn]. cbn beta. intros r Hle. qc_lra.
Qed.

Lemma writeCategory_pages (expenses : list Expense)
      (entry : string * number) (l : Layout) :
  (pageCount (pdf l)
   <= pageCount
        (pdf (writeCategory expenseCategories pageWidth expenses entry l)))%nat.
Proof.
  destruct entry as [cat total]. unfold writeCategory. rewrite !seq_apply.
  destruct (categoryHeader_moves expenseCategories pageWidth cat total l)
    as (_ & H2 & _).
  match goal with |- context [breakIfPast270 ?x] =>
    destruct (breakIfPast270_pages x) as [B _] end.
  etransitivity; [|exact B].
  change (pageCount (pdf (advance 10 ?x))) with (pageCount (pdf x)).
  rewrite <- H2. apply writeRows_pages.
Qed.

Lemma writeCategories_within (expenses : list Expense)
      (categoryTotals : object number) (l : Layout) :
  yPos l <= Q_ 270 ->
  Forall (fun r => snd r <= Q_ 294) (rowCursors (pdf l)) ->
  Forall (fun r => snd r <= Q_ 294)
    (rowCursors
       (pdf (writeCategories expenseCategories pageWidth expenses
                             categoryTotals l))).
Proof.
  unfold writeCategories, entries. revert l.
  induction categoryTotals as [|entry rest IH]; intros l Hy Hr; trivial.
  cbn [fold_left].
  destruct (writeCategory_within expenses entry l Hy Hr) as [Hy' Hr'].
  now apply IH.
Qed.

Lemma filter_all_in_category (cat : string) (expenses : list Expense) :
  Forall (fun exp => category exp = cat) expenses ->
  filter (fun exp => String.eqb (category exp) cat) expenses = expenses.
Proof.
  induction 1 as [|exp rest H _ IH]; trivial.
  cbn [filter]. rewrite H, String.eqb_refl. now f_equal.
Qed.

(** Two hundred rows do not fit on the page a category starts on. *)
Lemma writeCategory_200 (expenses : list Expense) (cat : string)
      (total : number) (l : Layout) :
  0 <= yPos l ->
  Forall (fun exp => category exp = cat) expenses ->
  List.length expenses = 200%nat ->
  (pageCount (pdf l)
   < pageCount (pdf (writeCategory expenseCategories pageWidth expenses
                                   (cat, total) l)))%nat.
Proof.
  intros Hy Hc Hlen. unfold writeCategory. rewrite !seq_apply.
  rewrite filter_all_in_category by exact Hc.
  destruct (categoryHeader_moves expenseCategories pageWidth cat total l)
    as (H1 & H2 & _).
  set (l1 := categoryHeader expenseCategories pageWidth cat total l) in *.
  match goal with |- context [breakIfPast270 ?x] =>
    destruct (breakIfPast270_pages x) as [B _] end.
  eapply Nat.lt_le_trans; [|exact B].
  change (pageCount (pdf (advance 10 ?x))) with (pageCount (pdf x)).
  rewrite <- H2.
  destruct (writeRows_pages pageWidth expenses l1) as [P1 P2].
  destruct (Nat.eq_dec (pageCount (pdf (writeRows pageWidth expenses l1)))
                       (pageCount (pdf l1))) as [E|E]; [|lia].
  exfalso. specialize (P2 E). rewrite Hlen, H1 in P2.
  destruct expenses as [|exp rows]; [discriminate|].
  destruct (writeRows_rows pageWidth exp rows l1) as (Hle & _).
  rewrite P2 in Hle. clear - Hle Hy. cbn in Hle. qc_lra.
Qed.

End CategoryFacts.

(* ================================================================= *)
(** ** exportToPDF *)

Section ExportFacts.

Variable Budget : Type.
Variable expenseCategories : string -> option string.
Variable getDateRange : Date -> Period -> DateRange.
Variable toISODate : Date -> string.
Variable pageWidth : Qc.
Variable userProfile : UserProfile.

(** Up to the first category nothing is written as a table row, no page
    is added, and the cursor ends at 105 below the height of the logo. *)
Lemma before_categories (s : State Budget) (from to : Date)
      (logoWidth logoHeight : Qc) :
  let l := (periodBlock (period s) from to ;;
            heading pageWidth "Summary" ;;
            summaryBox pageWidth (reportData s) ;;
            heading pageWidth "Category Breakdown")
             (titleBlock pageWidth logoWidth logoHeight
                {| pdf := new_jsPDF; yPos := Q_ 20 |}) in
  yPos l = Q_ 105 + logoHeight /\
  pageCount (pdf l) = 1%nat /\
  rowCursors (pdf l) = [].
Proof.
  intros l. subst l. rewrite !seq_apply.
  set (l0 := titleBlock pageWidth logoWidth logoHeight _).
  assert (H0 : yPos l0 = Q_ 35 + logoHeight /\
               pageCount (pdf l0) = 1%nat /\ rowCursors (pdf l0) = []).
  { subst l0. unfold titleBlock. layout. repeat split. qc_eq. }
  destruct H0 as (Y0 & P0 & R0).
  destruct (periodBlock_moves (period s) from to l0) as (Y1 & P1 & R1).
  set (l1 := periodBlock (period s) from to l0) in *.
  destruct (heading_moves pageWidth "Summary" l1) as (Y2 & P2 & R2).
  set (l2 := heading pageWidth "Summary" l1) in *.
  destruct (summaryBox_moves pageWidth (reportData s) l2) as (Y3 & P3 & R3).
  set (l3 := summaryBox pageWidth (reportData s) l2) in *.
  destruct (heading_moves pageWidth "Category Breakdown" l3)
    as (Y4 & P4 & R4).
  rewrite Y4, Y3, Y2, Y1, Y0, P4, P3, P2, P1, P0, R4, R3, R2, R1, R0.
  repeat split. qc_eq.
Qed.

(** What the load handler hands over is the layout with the categories
    written after the summary. *)
Lemma exported_document (s : State Budget) (now : Date)
      (platform : Platform) (width height : positive) (doc : Pdf)
      (d : Delivery) :
  exportToPDF expenseCategories getDateRange toISODate pageWidth
              userProfile s now platform (loaded width height)
    = Some (exported doc d) ->
  exists from to,
    doc = pdf (writeCategories expenseCategories pageWidth (expenses s)
                 (categoryTotals_or_empty (reportData s))
                 ((periodBlock (period s) from to ;;
                   heading pageWidth "Summary" ;;
                   summaryBox pageWidth (reportData s) ;;
                   heading pageWidth "Category Breakdown")
                    (titleBlock pageWidth
                       (fst (logoSize width height))
                       (snd (logoSize width height))
                       {| pdf := new_jsPDF; yPos := Q_ 20 |}))).
Proof.
  unfold exportToPDF, fire, onload, option_map, onloadHandler.
  destruct (logoSize width height) as [lw lh]. cbn [fst snd].
  destruct (exportDateRange getDateRange userProfile now (period s)
                            (customDate s)) as [[from|] [to|]];
    cbn [startDate endDate]; try discriminate.
  destruct (getFilenameDatePart _ _ _); [|discriminate].
  intros H. injection H as <- _. exists from, to.
  rewrite !seq_apply. reflexivity.
Qed.

(** X15: in an exported document every row was written with the cursor
    at 294 at most: the first row of a category comes 24 below the start
    of the category, which is within the margin. *)
Lemma exported_rows_within_294 (s : State Budget) (now : Date)
      (platform : Platform) (width height : positive) (doc : Pdf)
      (d : Delivery) :
  exportToPDF expenseCategories getDateRange toISODate pageWidth
              userProfile s now platform (loaded width height)
    = Some (exported doc d) ->
  Forall (fun r => snd r <= Q_ 294) (rowCursors doc).
Proof.
  intros H. apply exported_document in H. destruct H as (from & to & ->).
  destruct (before_categories s from to (fst (logoSize width height))
              (snd (logoSize width height))) as (Y & P & R).
  destruct (logoSize_height width height) as [L0 L40].
  match type of Y with yPos ?x = _ => set (l := x) in * end.
  apply writeCategories_within.
  - rewrite Y. qc_lra.
  - rewrite R. constructor.
Qed.

(** C7, as the code has it: a row is written where the cursor stands, on
    the current page, and only then is the cursor moved on by 8 and, if
    it went past 270, a page added and the cursor put back to 20.  So the
    cursor is within the margin after every row, the rows of a category
    after its first are written within the margin, and a single category
    of 200 items takes more than one page. *)
Theorem exportToPDF_breaks_page_after_writing :
  (forall exp l,
     rowCursors (pdf (writeRow pageWidth exp l))
       = (rowCursors (pdf l) ++ [(pageCount (pdf l), yPos l)])%list /\
     yPos (writeRow pageWidth exp l) <= Q_ 270) /\
  (forall exp rows l,
     exists rest,
       rowCursors (pdf (writeRows pageWidth (exp :: rows) l))
         = (rowCursors (pdf l) ++ (pageCount (pdf l), yPos l) :: rest)%list /\
       Forall (fun r => snd r <= Q_ 270) rest) /\
  (forall (s : State Budget) now platform width height doc d,
     exportToPDF expenseCategories getDateRange toISODate pageWidth
                 userProfile s now platform (loaded width height)
       = Some (exported doc d) ->
     forall cat total,
       categoryTotals_or_empty (reportData s) = [(cat, total)] ->
       Forall (fun exp => category exp = cat) (expenses s) ->
       List.length (expenses s) = 200%nat ->
       (1 < pageCount doc)%nat).
Proof.
  split; [|split].
  - intros exp l. split; [apply writeRow_rows | apply writeRow_yPos].
  - intros exp rows l. apply writeRows_rows.
  - intros s now platform width height doc d H.
    apply exported_document in H. destruct H as (from & to & ->).
    destruct (before_categories s from to (fst (logoSize width height))
                (snd (logoSize width height))) as (Y & P & R).
    destruct (logoSize_height width height) as [L0 L40].
    match type of Y with yPos ?x = _ => set (l := x) in * end.
    intros cat total Hc Hall Hlen. rewrite Hc.
    unfold writeCategories, entries. cbn [fold_left].
    rewrite <- P. apply writeCategory_200; trivial.
    rewrite Y. qc_lra.
Qed.

(** C8, as the code has it: all of the document is made by the handler of
    the image's load event and no handler is set for its error event.  A
    logo that fails to load leaves the export without any result; a logo
    that loads, under the period [all], gets the document delivered. *)
Theorem exportToPDF_waits_for_the_logo (s : State Budget) (now : Date)
        (platform : Platform) :
  exportToPDF expenseCategories getDateRange toISODate pageWidth
              userProfile s now platform failed = None /\
  (forall width height,
     period s = All ->
     exists doc d,
       exportToPDF expenseCategories getDateRange toISODate pageWidth
                   userProfile s now platform (loaded width height)
         = Some (exported doc d)).
Proof.
  split; [reflexivity|].
  intros width height Hp.
  unfold exportToPDF, fire, onload, option_map, onloadHandler.
  destruct (logoSize width height) as [lw lh].
  unfold exportDateRange, getFilenameDatePart. rewrite Hp.
  cbn [is_all is_custom startDate endDate]. eauto.
Qed.

End ExportFacts.

(** *** The order of the category sections *)

Lemma sectionOrder_draw (d : Draw) (l : Layout) :
  sectionOrder (pdf (draw d l)) =
  (sectionOrder (pdf l) ++
     match d with
     | text (CategoryLine name total) _ _ => [(name, total)]
     | _ => []
     end)%list.
Proof.
  unfold sectionOrder, draw. cbn [pdf calls].
  rewrite flat_map_app. cbn [flat_map snd]. now rewrite app_nil_r.
Qed.

Ltac sections :=
  unfold seq, atY, advance, setY, skip;
  repeat (progress (cbn [pdf yPos pageCount calls];
                    rewrite ?sectionOrder_draw, ?app_nil_r)).

Lemma breakIfPast270_sections (l : Layout) :
  sectionOrder (pdf (breakIfPast270 l)) = sectionOrder (pdf l).
Proof.
  destruct (breakIfPast270_cases l) as [[H ->] | [H ->]]; reflexivity.
Qed.

Section SectionOrderFacts.

Variable Budget : Type.
Variable expenseCategories : string -> option string.
Variable getDateRange : Date -> Period -> DateRange.
Variable toISODate : Date -> string.
Variable pageWidth : Qc.
Variable userProfile : UserProfile.

Lemma writeRows_sections (rows : list Expense) (l : Layout) :
  sectionOrder (pdf (writeRows pageWidth rows l)) = sectionOrder (pdf l).
Proof.
  revert l. induction rows as [|exp rows IH]; intros l; trivial.
  rewrite writeRows_cons, IH.
  unfold writeRow. unfold seq at 1 5. rewrite breakIfPast270_sections.
  unfold when. sections. destruct (banded (yPos l)); sections; reflexivity.
Qed.

Lemma writeCategory_sections (expenses : list Expense)
      (entry : string * number) (l : Layout) :
  sectionOrder
    (pdf (writeCategory expenseCategories pageWidth expenses entry l))
  = (sectionOrder (pdf l)
       ++ [(categoryName expenseCategories (fst entry), snd entry)])%list.
Proof.
  destruct entry as [cat total]. unfold writeCategory.
  rewrite !seq_apply, breakIfPast270_sections.
  change (sectionOrder (pdf (advance 10 ?x))) with (sectionOrder (pdf x)).
  rewrite writeRows_sections. unfold categoryHeader. sections. reflexivity.
Qed.

Lemma writeCategories_sections (expenses : list Expense)
      (categoryTotals : object number) (l : Layout) :
  sectionOrder
    (pdf (writeCategories expenseCategories pageWidth expenses
                          categoryTotals l))
  = (sectionOrder (pdf l)
       ++ map (fun e => (categoryName expenseCategories (fst e), snd e))
              (entries categoryTotals))%list.
Proof.
  unfold writeCategories, entries. revert l.
  induction categoryTotals as [|entry rest IH]; intros l.
  - cbn. now rewrite app_nil_r.
  - cbn [fold_left map]. rewrite IH, writeCategory_sections, <- app_assoc.
    reflexivity.
Qed.

Lemma titleBlock_sections (logoWidth logoHeight : Qc) (l : Layout) :
  sectionOrder (pdf (titleBlock pageWidth logoWidth logoHeight l))
  = sectionOrder (pdf l).
Proof. unfold titleBlock. sections. reflexivity. Qed.

Lemma periodBlock_sections (p : Period) (from to : Date) (l : Layout) :
  sectionOrder (pdf (periodBlock p from to l)) = sectionOrder (pdf l).
Proof. unfold periodBlock. sections. reflexivity. Qed.

Lemma heading_sections (title : string) (l : Layout) :
  sectionOrder (pdf (heading pageWidth title l)) = sectionOrder (pdf l).
Proof. unfold heading. sections. reflexivity. Qed.

Lemma summaryBox_sections (reportData : ReportData) (l : Layout) :
  sectionOrder (pdf (summaryBox pageWidth reportData l))
  = sectionOrder (pdf l).
Proof. unfold summaryBox. sections. reflexivity. Qed.

(** X16: whatever the totals are, an exported document has one section
    per entry of [categoryTotals], in the order of the entries, headed by
    the name of the category and its total. *)
Lemma exportToPDF_sections_follow_entries (s : State Budget) (now : Date)
      (platform : Platform) (width height : positive) (doc : Pdf)
      (d : Delivery) :
  exportToPDF expenseCategories getDateRange toISODate pageWidth
              userProfile s now platform (loaded width height)
    = Some (exported doc d) ->
  sectionOrder doc
  = map (fun e => (categoryName expenseCategories (fst e), snd e))
        (entries (categoryTotals_or_empty (reportData s))).
Proof.
  intros H. apply exported_document in H. destruct H as (from & to & ->).
  rewrite writeCategories_sections, !seq_apply.
  rewrite heading_sections, summaryBox_sections, heading_sections,
          periodBlock_sections, titleBlock_sections.
  reflexivity.
Qed.

End SectionOrderFacts.

(** C6: with the totals [{A: 10, B: 50}] the sections of the document are A
    then B, the order of the entries, while the breakdown on the page, made
    from the same totals, shows B before A. *)
Theorem exportToPDF_sections_in_entry_order :
  sectionOrder (Demo.document (Demo.showing Demo.smallThenLarge)
                              (loaded 40 40))
    = [("A", of_Z 10); ("B", of_Z 50)] /\
  descending (sectionOrder (Demo.document (Demo.showing Demo.smallThenLarge)
                                          (loaded 40 40))) = false /\
  breakdownOrder (reportData (Demo.showing Demo.smallThenLarge))
    = [("B", of_Z 50); ("A", of_Z 10)].
Proof. repeat split. Qed.

(** C7: forty-three items in one category and one in the next, square
    logo.  The first category ends on the second page with the cursor at
    270, so the next one starts there and its row is written with the
    cursor at 294, past 270, with no page added before it. *)
Lemma row_written_past_the_margin :
  ~ checked_before_writing
      (Demo.document (Demo.showing (Demo.items "A" 43 ++ Demo.items "B" 1)%list)
                     (loaded 40 40)).
Proof.
  unfold checked_before_writing. intros H.
  assert (E : existsb (fun r => (fst r =? 2)%nat &&
                                if Qclt_le_dec (Q_ 293) (snd r)
                                then true else false)
                (rowCursors (Demo.document
                   (Demo.showing (Demo.items "A" 43 ++ Demo.items "B" 1)%list)
                   (loaded 40 40))) = true) by (vm_compute; reflexivity).
  apply existsb_exists in E. destruct E as (r & Hin & Hr).
  rewrite Forall_forall in H. specialize (H r Hin).
  apply andb_prop in Hr. destruct Hr as [_ Hr].
  destruct (Qclt_le_dec (Q_ 293) (snd r)) as [L|L]; [|discriminate].
  clear - H L. qc_lra.
Qed.

(** In that document the amount of the last row is printed at 298 on the
    second page, below the 297 of an A4 page. *)
Lemma row_drawn_below_the_page :
  existsb (fun c => match c with
                    | (2%nat, text (AmountCell _) _ y) =>
                        if Qclt_le_dec a4_height y then true else false
                    | _ => false
                    end)
          (calls (Demo.document
                    (Demo.showing (Demo.items "A" 43 ++ Demo.items "B" 1)%list)
                    (loaded 40 40))) = true.
Proof. vm_compute. reflexivity. Qed.

(** Two hundred items in the one category [A], square logo. *)
Lemma two_hundred_items_take_pages :
  (1 < pageCount (Demo.document (Demo.showing (Demo.items "A" 200))
                                (loaded 40 40)))%nat.
Proof.
  refine (proj2 (proj2
    (exportToPDF_breaks_page_after_writing Demo.Budget Demo.expenseCategories
       Demo.getDateRange Demo.toISODate Demo.pageWidth Demo.userProfile))
    (Demo.showing (Demo.items "A" 200)) Demo.now Demo.browser 40%positive
    40%positive _ (saved "finsight-report-month.pdf") _ "A" (of_Z 200) _ _ _).
  - vm_compute. reflexivity.
  - vm_compute. reflexivity.
  - apply Forall_forall. intros exp Hin.
    apply repeat_spec in Hin. now subst exp.
  - apply repeat_length.
Defined.

(** C8: nothing comes of the export when the logo fails to load. *)
Lemma no_document_without_logo :
  ~ exists doc d,
      Demo.export (Demo.showing [Demo.coffee]) failed = Some (exported doc d).
Proof. intros (doc & d & H). discriminate H. Qed.

(** Under the period [all] a logo that loads gets the report delivered. *)
Lemma all_time_report_is_delivered :
  exists doc d,
    exportToPDF Demo.expenseCategories Demo.getDateRange Demo.toISODate
      Demo.pageWidth Demo.userProfile
      (setPeriod All (Demo.showing [Demo.coffee])) Demo.now Demo.browser
      (loaded 40 40)
    = Some (exported doc d).
Proof.
  apply (proj2 (exportToPDF_waits_for_the_logo Demo.Budget
                  Demo.expenseCategories Demo.getDateRange Demo.toISODate
                  Demo.pageWidth Demo.userProfile
                  (setPeriod All (Demo.showing [Demo.coffee]))
                  Demo.now Demo.browser)).
  reflexivity.
Defined.

(* ================================================================= *)
(** ** Fetching and the period selection *)

Section OrchestratorFacts.

Variable Budget : Type.
Variable toLocaleDateString : string -> string.
Variable getDateRange : Date -> Period -> DateRange.
Variable toISODate : Date -> string.
Variable userProfile : UserProfile.

(** A fetch leaves the selection alone. *)
Lemma fetchReportData_selection (seen s : State Budget) (now : Date)
      (api : Api Budget) :
  period (fetchReportData toLocaleDateString getDateRange toISODate
                          userProfile seen now api s) = period s /\
  customDate (fetchReportData toLocaleDateString getDateRange toISODate
                              userProfile seen now api s) = customDate s.
Proof.
  unfold fetchReportData.
  destruct (is_custom (period seen) && negb (both_set (customDate seen)));
    [split; reflexivity|].
  destruct (startDate _) as [from|]; [|split; reflexivity].
  destruct (endDate _) as [to|]; [|split; reflexivity].
  destruct (getExpenses api _ _); [|split; reflexivity].
  destruct (getBudgets api); split; reflexivity.
Qed.

(** C9, as the code has it: when the fetch fails the error is handed to
    [handleError] and [loading] is cleared, and that is all: the summary,
    the expenses and the budgets held before stay as they were. *)
Theorem fetchReportData_failure_keeps_summary (seen s : State Budget)
        (now : Date) (api : Api Budget) (err : string) :
  is_custom (period seen) && negb (both_set (customDate seen)) = false ->
  (forall from to, getExpenses api from to = rejected err) \/
  ((forall from to, exists v, getExpenses api from to = resolved v) /\
   getBudgets api = rejected err) ->
  (error (fetchReportData toLocaleDateString getDateRange toISODate
                          userProfile seen now api s) = Some err \/
   error (fetchReportData toLocaleDateString getDateRange toISODate
                          userProfile seen now api s) = Some "TypeError") /\
  reportData (fetchReportData toLocaleDateString getDateRange toISODate
                              userProfile seen now api s) = reportData s /\
  expenses (fetchReportData toLocaleDateString getDateRange toISODate
                            userProfile seen now api s) = expenses s /\
  budgets (fetchReportData toLocaleDateString getDateRange toISODate
                           userProfile seen now api s) = budgets s /\
  loading (fetchReportData toLocaleDateString getDateRange toISODate
                           userProfile seen now api s) = false.
Proof.
  intros Hc Hfail. unfold fetchReportData. rewrite Hc.
  destruct (startDate _) as [from|]; [|cbn; auto 6].
  destruct (endDate _) as [to|]; [|cbn; auto 6].
  destruct Hfail as [He | [He Hb]].
  - rewrite He. cbn. auto 6.
  - destruct (He (toISODate from) (toISODate to)) as [v ->].
    rewrite Hb. cbn. auto 6.
Qed.

Lemma step_selection (s : State Budget) (ev : Event Budget) :
  (period s <> Custom ->
   customDate s = {| startDate := None; endDate := None |}) ->
  period (step toLocaleDateString getDateRange toISODate userProfile s ev)
    <> Custom ->
  customDate (step toLocaleDateString getDateRange toISODate userProfile
                   s ev)
    = {| startDate := None; endDate := None |}.
Proof.
  intros IH. destruct ev as [p now api | v | v | now api | now api];
    cbn [step].
  - set (s2 := if negb (is_custom p) then _ else _).
    assert (H2 : period s2 = p /\
                 (p <> Custom ->
                  customDate s2 = {| startDate := None; endDate := None |})).
    { subst s2. destruct p; cbn; split; trivial; congruence. }
    destruct H2 as [P2 C2].
    destruct (Period_eqb p (period s)).
    + rewrite P2. exact C2.
    + unfold periodEffect.
      destruct (negb (is_custom (period s2)));
        [|destruct (both_set (customDate s2))];
        rewrite ?(proj1 (fetchReportData_selection _ _ _ _)),
                ?(proj2 (fetchReportData_selection _ _ _ _)), P2;
        exact C2.
  - destruct (is_custom (period s)) eqn:E; [|exact IH].
    cbn. destruct (period s); discriminate || congruence.
  - destruct (is_custom (period s)) eqn:E; [|exact IH].
    cbn. destruct (period s); discriminate || congruence.
  - destruct (is_custom (period s)) eqn:E; [|exact IH].
    unfold handleDateSelectionComplete.
    destruct (is_custom (period s) && both_set (customDate s));
      rewrite ?(proj1 (fetchReportData_selection _ _ _ _)),
              ?(proj2 (fetchReportData_selection _ _ _ _)); exact IH.
  - rewrite (proj1 (fetchReportData_selection _ _ _ _)),
            (proj2 (fetchReportData_selection _ _ _ _)). exact IH.
Qed.

(** C10: in every reachable state a period other than custom goes with
    two empty custom bounds, so under the period [all] the end of the
    fetched range is the current instant. *)
Theorem non_custom_period_has_no_custom_dates (s : State Budget) :
  reachable toLocaleDateString getDateRange toISODate userProfile s ->
  (period s <> Custom ->
   customDate s = {| startDate := None; endDate := None |}) /\
  (period s = All ->
   forall now,
     endDate (fetchDateRange getDateRange userProfile now (period s)
                             (customDate s)) = Some now).
Proof.
  intros R.
  assert (I : period s <> Custom ->
              customDate s = {| startDate := None; endDate := None |}).
  { induction R as [|s ev R IH]; [reflexivity|].
    now apply step_selection. }
  split; [exact I|].
  intros Hall now. rewrite I by congruence.
  unfold fetchDateRange. rewrite Hall. reflexivity.
Qed.

End OrchestratorFacts.

(** C9: a summary is on display and the next fetch fails; the summary stays,
    it is not replaced by the empty one. *)
Lemma failed_fetch_keeps_stale_summary :
  reportData (Demo.fetch' (Demo.showing [Demo.coffee]) Demo.offline
                          (Demo.showing [Demo.coffee]))
    <> Some emptySummary /\
  reportData (Demo.fetch' (Demo.showing [Demo.coffee]) Demo.offline
                          (Demo.showing [Demo.coffee]))
    = Some (Demo.aggregate [Demo.coffee]).
Proof.
  split; [|reflexivity].
  intros H. vm_compute in H. congruence.
Qed.

(** The error of the failed call is the one kept for display. *)
Lemma failed_fetch_example :
  error (Demo.fetch' (Demo.showing [Demo.coffee]) Demo.offline
                     (Demo.showing [Demo.coffee])) = Some "Network Error" \/
  error (Demo.fetch' (Demo.showing [Demo.coffee]) Demo.offline
                     (Demo.showing [Demo.coffee])) = Some "TypeError".
Proof.
  apply (fetchReportData_failure_keeps_summary Demo.Budget enUS_dateString
           Demo.getDateRange Demo.toISODate Demo.userProfile
           (Demo.showing [Demo.coffee]) (Demo.showing [Demo.coffee])
           Demo.now Demo.offline "Network Error").
  - reflexivity.
  - left. reflexivity.
Defined.

(** Custom, an end date picked, then all time: the end date is gone. *)
Lemma all_time_after_custom :
  customDate
    (Demo.step'
       (Demo.step'
          (Demo.step' initialState
             (selectPeriod Custom Demo.now (Demo.answering [Demo.coffee])))
          (pickEndDate (Some date_2000_01_01)))
       (selectPeriod All Demo.now (Demo.answering [Demo.coffee])))
  = {| startDate := None; endDate := None |}.
Proof.
  apply (non_custom_period_has_no_custom_dates Demo.Budget enUS_dateString
           Demo.getDateRange Demo.toISODate Demo.userProfile).
  - repeat apply reachable_step. apply reachable_initial.
  - intros H. vm_compute in H. discriminate.
Defined.

(* ================================================================= *)
(** ** More on the aggregation *)

(** *** The keys of the two maps *)

Lemma keys_set {V} (k : string) (v : V) (o : object V) :
  keys (set k v o)
  = if existsb (String.eqb k) (keys o) then keys o else (keys o ++ [k])%list.
Proof.
  unfold keys. induction o as [|[k' v'] o IH]; cbn [set map fst existsb].
  - reflexivity.
  - destruct (String.eqb k k') eqn:E; cbn [orb map fst].
    + reflexivity.
    + rewrite IH. destruct (existsb (String.eqb k) (map fst o)); reflexivity.
Qed.

Lemma existsb_eqb_In (k : string) (ks : list string) :
  existsb (String.eqb k) ks = true <-> In k ks.
Proof.
  rewrite existsb_exists. split.
  - intros (x & Hx & E). apply String.eqb_eq in E. now subst.
  - intros H. exists k. split; trivial. apply String.eqb_refl.
Qed.

Lemma filter_filter_comm {A} (p q : A -> bool) (l : list A) :
  filter p (filter q l) = filter q (filter p l).
Proof.
  induction l as [|x l IH]; trivial.
  cbn [filter]. destruct (p x) eqn:P, (q x) eqn:Q; cbn [filter];
    rewrite ?P, ?Q, IH; reflexivity.
Qed.

Lemma filter_both {A} (p q : A -> bool) (l : list A) :
  filter p (filter q l) = filter (fun x => q x && p x) l.
Proof.
  induction l as [|x l IH]; trivial.
  cbn [filter]. destruct (q x) eqn:Q; cbn [filter andb]; rewrite IH; trivial.
Qed.

Lemma filter_keep_all {A} (p : A -> bool) (l : list A) :
  (forall x, p x = true) -> filter p l = l.
Proof.
  intros H. induction l as [|x l IH]; trivial.
  cbn [filter]. now rewrite H, IH.
Qed.

Lemma filter_absorb {A} (p q : A -> bool) (l : list A) :
  (forall x, p x = true -> q x = true) ->
  filter p (filter q l) = filter p l.
Proof.
  intros H. induction l as [|x l IH]; trivial.
  cbn [filter]. destruct (q x) eqn:Q; cbn [filter].
  - now rewrite IH.
  - destruct (p x) eqn:P; trivial. apply H in P. congruence.
Qed.

Lemma first_seen_In (k : string) (l : list string) :
  In k (first_seen l) <-> In k l.
Proof.
  induction l as [|x l IH]; cbn [first_seen In]; [tauto|].
  rewrite filter_In, IH. destruct (String.eqb_spec k x) as [->|N].
  - tauto.
  - cbn. intuition congruence.
Qed.

Lemma first_seen_NoDup (l : list string) : NoDup (first_seen l).
Proof.
  induction l as [|x l IH]; cbn [first_seen]; constructor.
  - rewrite filter_In, String.eqb_refl. cbn. intros [_ H]. discriminate.
  - now apply NoDup_filter.
Qed.

(** The loop adds the keys it has not met yet, in the order it meets them. *)
Lemma keys_bumpAll (key : Expense -> string) (es : list Expense)
      (o : object number) :
  keys (bumpAll key es o)
  = (keys o ++ filter (fun k => negb (existsb (String.eqb k) (keys o)))
                      (first_seen (map key es)))%list.
Proof.
  revert o. induction es as [|e es IH]; intros o.
  - cbn. now rewrite app_nil_r.
  - rewrite bumpAll_cons, IH. unfold bump at 1 2. rewrite keys_set.
    cbn [map first_seen filter].
    destruct (existsb (String.eqb (key e)) (keys o)) eqn:E; cbn [negb].
    + f_equal. symmetry. apply filter_absorb.
      intros k Hk. destruct (String.eqb_spec k (key e)) as [->|]; trivial.
      rewrite E in Hk. discriminate.
    + rewrite <- app_assoc. cbn [app]. do 2 f_equal.
      rewrite filter_both.
      apply filter_ext. intros k. rewrite existsb_app. cbn [existsb].
      rewrite orb_false_r, negb_orb. apply andb_comm.
Qed.


(** *** The total of one key *)



(** What a key holds after the loop depends on what it held before and on
    nothing else of the object. *)
Lemma get_bumpAll_ext key k es o1 o2 :
  get k o1 = get k o2 ->
  get k (bumpAll key es o1) = get k (bumpAll key es o2).
Proof.
  revert o1 o2. induction es as [|e es IH]; intros o1 o2 H; trivial.
  rewrite !bumpAll_cons. apply IH. unfold bump.
  destruct (String.eqb_spec k (key e)) as [->|N].
  - rewrite !get_set_same. now rewrite H.
  - rewrite !get_set_other by exact N. exact H.
Qed.

Lemma get_bumpAll_local key k es o :
  get k (bumpAll key es o)
  = get k (bumpAll key (filter (fun e => String.eqb (key e) k) es) o).
Proof.
  revert o. induction es as [|e es IH]; intros o; trivial.
  cbn [filter]. destruct (String.eqb_spec (key e) k) as [E|N].
  - rewrite !bumpAll_cons. apply IH.
  - rewrite bumpAll_cons, <- IH. apply get_bumpAll_ext.
    unfold bump. apply get_set_other. congruence.
Qed.

(** The keys of the two maps after the loop. *)
Lemma categoryTotals_keys (toLocaleDateString : string -> string)
      (es : list Expense) :
  keys (categoryTotals (processReportData toLocaleDateString es))
  = first_seen (map category es).
Proof.
  rewrite categoryTotals_is_bumpAll, keys_bumpAll. cbn [keys map app].
  apply filter_keep_all. reflexivity.
Qed.

Lemma dailyTotals_keys (toLocaleDateString : string -> string)
      (es : list Expense) :
  keys (dailyTotals (processReportData toLocaleDateString es))
  = first_seen (map (fun e => toLocaleDateString (date e)) es).
Proof.
  rewrite dailyTotals_is_bumpAll, keys_bumpAll. cbn [keys map app].
  apply filter_keep_all. reflexivity.
Qed.

Section KeysFacts.

Variable toLocaleDateString : string -> string.

(** X1: for plain keys, the keys of [categoryTotals] are the categories
    of the records and those of [dailyTotals] their days, each once, in
    the order of first appearance; the Categories card counts the
    former.  The amounts need not parse. *)
Theorem processReportData_keys (es : list Expense) :
  Forall (fun e => plain_key (category e) = true) es ->
  Forall (fun e => plain_key (toLocaleDateString (date e)) = true) es ->
  keys (categoryTotals (processReportData toLocaleDateString es))
    = first_seen (map category es) /\
  keys (dailyTotals (processReportData toLocaleDateString es))
    = first_seen (map (fun e => toLocaleDateString (date e)) es) /\
  NoDup (keys (categoryTotals (processReportData toLocaleDateString es))) /\
  NoDup (keys (dailyTotals (processReportData toLocaleDateString es))) /\
  (forall k, In k (keys (categoryTotals
                           (processReportData toLocaleDateString es)))
             <-> exists e, In e es /\ category e = k) /\
  categoriesCard (Some (processReportData toLocaleDateString es))
    = List.length (first_seen (map category es)).
Proof.
  intros _ _.
  pose proof (categoryTotals_keys toLocaleDateString es) as C.
  pose proof (dailyTotals_keys toLocaleDateString es) as D.
  unfold categoriesCard. cbn [categoryTotals_or_empty].
  rewrite C, D. repeat split; try apply first_seen_NoDup.
  - intros H. apply first_seen_In, in_map_iff in H.
    destruct H as (e & <- & He). eauto.
  - intros (e & He & <-). apply first_seen_In, in_map. exact He.
Qed.


End KeysFacts.

Section TotalsFacts.

Variable toLocaleDateString : string -> string.


(** X3: the total of a category is made from the records of that
    category alone: dropping all the other records leaves it as it is.
    So an amount that does not parse can spoil no other category; the
    same holds of the days. *)
Theorem processReportData_total_is_local (es : list Expense) (k : string) :
  get k (categoryTotals (processReportData toLocaleDateString es))
  = get k (categoryTotals
             (processReportData toLocaleDateString
                (filter (fun e => String.eqb (category e) k) es))) /\
  get k (dailyTotals (processReportData toLocaleDateString es))
  = get k (dailyTotals
             (processReportData toLocaleDateString
                (filter (fun e => String.eqb (toLocaleDateString (date e)) k)
                        es))).
Proof.
  rewrite !categoryTotals_is_bumpAll, !dailyTotals_is_bumpAll.
  split.
  - apply get_bumpAll_local.
  - apply (get_bumpAll_local (fun e => toLocaleDateString (date e))).
Qed.


End TotalsFacts.



(** Two coffees and a bus fare: the categories in the order they are
    met. *)
Lemma keys_example :
  keys (categoryTotals (Demo.aggregate [Demo.coffee; Demo.bus; Demo.coffee]))
  = first_seen (map category [Demo.coffee; Demo.bus; Demo.coffee]).
Proof.
  apply (processReportData_keys enUS_dateString
           [Demo.coffee; Demo.bus; Demo.coffee]);
    repeat constructor.
Defined.


(* ================================================================= *)
(** ** More on the charts and the breakdown *)

(** *** The order of strings *)

Lemma ascii_compare_refl (a : ascii) : Ascii.compare a a = Eq.
Proof. unfold Ascii.compare. apply N.compare_refl. Qed.

Lemma ascii_compare_trans (a b c : ascii) :
  Ascii.compare a b <> Gt -> Ascii.compare b c <> Gt ->
  Ascii.compare a c <> Gt /\
  (Ascii.compare a c = Eq -> Ascii.compare a b = Eq /\ Ascii.compare b c = Eq).
Proof.
  unfold Ascii.compare.
  destruct (N.compare_spec (N_of_ascii a) (N_of_ascii b)),
           (N.compare_spec (N_of_ascii b) (N_of_ascii c)),
           (N.compare_spec (N_of_ascii a) (N_of_ascii c));
    intros; split; intros; try split; try congruence; try lia.
Qed.

(** [compare a b <> Gt] reads [a <= b]; it is transitive. *)
Lemma string_le_trans (a b c : string) :
  String.compare a b <> Gt -> String.compare b c <> Gt ->
  String.compare a c <> Gt.
Proof.
  revert b c. induction a as [|x a IH]; intros [|y b] [|z c];
    cbn [String.compare]; try congruence.
  intros H1 H2.
  destruct (Ascii.compare x y) eqn:Exy; [| |congruence];
    (destruct (Ascii.compare y z) eqn:Eyz; [| |congruence]);
    (destruct (ascii_compare_trans x y z) as [T1 T2];
       [rewrite Exy; discriminate | rewrite Eyz; discriminate |]);
    (destruct (Ascii.compare x z) eqn:Exz;
       [| discriminate | congruence]);
    try (destruct (T2 eq_refl); congruence).
  now apply (IH b c).
Qed.

Lemma ltb_false_le (a b : string) :
  String.ltb b a = false <-> String.compare a b <> Gt.
Proof.
  unfold String.ltb. rewrite (String.compare_antisym b a).
  destruct (String.compare a b); cbn; split; congruence.
Qed.

(** [arr.sort()] leaves strings in ascending order. *)
Lemma sort_strings_sorted (l : list string) :
  StronglySorted (fun a b => String.ltb b a = false) (sort_strings l).
Proof.
  unfold sort_strings.
  apply (sort_sorted _ _ (fun _ => True)).
  - intros a b _ _ H. unfold String.ltb in *.
    rewrite (String.compare_antisym b a) in H.
    destruct (String.compare a b); cbn in *; congruence.
  - intros a b _ _ H. exact H.
  - intros a b c _ _ _ H1 H2. rewrite ltb_false_le in *.
    now apply (string_le_trans a b c).
  - apply Forall_forall. trivial.
Qed.

(** *** Reading an object at its keys *)

Lemma get_In_keys {V} (k : string) (o : object V) :
  In k (keys o) -> get k o <> None.
Proof.
  unfold keys. induction o as [|[k' v] o IH]; cbn [map fst In get].
  - tauto.
  - destruct (String.eqb_spec k k'); [discriminate|].
    intros [E | H]; [congruence | now apply IH].
Qed.

Lemma get_at_keys {V} (o : object V) :
  NoDup (keys o) ->
  map (fun k => get k o) (keys o) = map Some (values o).
Proof.
  unfold keys, values. induction o as [|[k v] o IH]; trivial.
  cbn [map fst snd]. intros N. inversion N as [|? ? Hk Ho]; subst.
  cbn [get]. rewrite String.eqb_refl. f_equal.
  rewrite <- IH by exact Ho.
  apply map_ext_in. intros k' Hk'.
  destruct (String.eqb_spec k' k) as [->|]; [contradiction | reflexivity].
Qed.

Lemma Permutation_map_Some {A} (l : list (option A)) (vs : list A) :
  Permutation l (map Some vs) ->
  exists ws, l = map Some ws /\ Permutation ws vs.
Proof.
  revert vs. induction l as [|x l IH]; intros vs P.
  - exists []. split; trivial.
    apply Permutation_nil in P. destruct vs; [constructor | discriminate].
  - assert (Hx : In x (map Some vs))
      by (apply (Permutation_in _ P); now left).
    apply in_map_iff in Hx. destruct Hx as (v & <- & Hv).
    apply in_split in Hv. destruct Hv as (v1 & v2 & ->).
    rewrite map_app in P. cbn [map] in P.
    apply Permutation_cons_app_inv in P. rewrite <- map_app in P.
    destruct (IH _ P) as (ws & -> & Pw).
    exists (v :: ws). split; trivial.
    now apply Permutation_cons_app.
Qed.

Section TrendFacts.

(** X6: whatever the summary, the labels of the daily trend are the keys
    of [dailyTotals] put in ascending order as strings, and every point is
    read at a key that is there: no point is undefined. *)
Theorem getDailyTrendData_sorted_and_defined (reportData : ReportData) :
  Permutation (labels (getDailyTrendData reportData))
              (keys (dailyTotals_or_empty reportData)) /\
  StronglySorted (fun a b => String.ltb b a = false)
                 (labels (getDailyTrendData reportData)) /\
  Forall (fun v => v <> None) (data (getDailyTrendData reportData)) /\
  List.length (data (getDailyTrendData reportData))
    = List.length (labels (getDailyTrendData reportData)).
Proof.
  assert (P : Permutation (labels (getDailyTrendData reportData))
                          (keys (dailyTotals_or_empty reportData)))
    by apply sort_Permutation.
  split; [exact P|]. split; [apply sort_strings_sorted|]. split.
  - unfold getDailyTrendData in *. cbn [data labels] in *.
    apply Forall_forall. intros v Hv. apply in_map_iff in Hv.
    destruct Hv as (k & <- & Hk). apply get_In_keys.
    apply (Permutation_in _ P Hk).
  - unfold getDailyTrendData. cbn [data labels]. apply length_map.
Qed.

(** X7: the points of the daily trend are the daily totals, each of
    them once, rearranged as the sorted keys have it.  The keys of an
    object are distinct. *)
Theorem getDailyTrendData_points_are_totals (reportData : ReportData) :
  NoDup (keys (dailyTotals_or_empty reportData)) ->
  exists points : list number,
    data (getDailyTrendData reportData) = map Some points /\
    Permutation points (values (dailyTotals_or_empty reportData)) /\
    List.length points = List.length (keys (dailyTotals_or_empty reportData)).
Proof.
  intros N.
  set (o := dailyTotals_or_empty reportData) in *.
  assert (P : Permutation (data (getDailyTrendData reportData))
                          (map Some (values o))).
  { rewrite <- (get_at_keys o N).
    unfold getDailyTrendData. cbn [data]. fold o.
    apply Permutation_map. apply sort_Permutation. }
  apply Permutation_map_Some in P. destruct P as (ws & E & Pw).
  exists ws. split; [exact E|]. split; [exact Pw|].
  rewrite (Permutation_length Pw). unfold keys, values.
  now rewrite !length_map.
Qed.

End TrendFacts.

(** The two days of January: the points are the 7 of the tenth and the 5
    of the ninth. *)
Lemma trend_points_example :
  exists points : list number,
    data (getDailyTrendData Demo.twoDays) = map Some points /\
    Permutation points (values (dailyTotals_or_empty Demo.twoDays)) /\
    List.length points = List.length (keys (dailyTotals_or_empty Demo.twoDays)).
Proof.
  apply (getDailyTrendData_points_are_totals Demo.twoDays).
  repeat constructor; cbn; intuition discriminate.
Defined.

(** *** The order of the breakdown *)

(** Sorting by [b - a] puts numbers in descending order and leaves entries
    of equal amount in the order they had. *)
Lemma sort_byAmountDesc (l : list (string * number)) :
  numbers_only l ->
  StronglySorted (fun x y => number_ge (snd x) (snd y))
                 (sort_by byAmountDesc l) /\
  (forall v, filter (has_amount v) (sort_by byAmountDesc l)
             = filter (has_amount v) l).
Proof.
  intros Hn. split.
  - apply (sort_sorted _ _ (fun e => snd e <> NaN)); [| | |exact Hn].
    + intros [ka [a|]] [kb [b|]] Ha Hb; cbn [snd] in *; try congruence.
      unfold byAmountDesc. cbn [snd]. intros H.
      apply is_positive_sub in H. cbn. now apply Qclt_le_weak.
    + intros [ka [a|]] [kb [b|]] Ha Hb; cbn [snd] in *; try congruence.
      unfold byAmountDesc. cbn [snd]. intros H. cbn [number_ge].
      apply Qcnot_lt_le. intros L. apply is_positive_sub in L. congruence.
    + intros [ka [a|]] [kb [b|]] [kc [c|]] _ _ _; cbn; try tauto.
      intros H1 H2. eapply Qcle_trans; eassumption.
  - intros v. apply filter_sort.
    intros [ka a] [kb b]. unfold has_amount, byAmountDesc. cbn [snd].
    intros H Ha. destruct (number_eqb b v) eqn:Hb; trivial.
    apply number_eqb_eq in Ha, Hb. subst a b.
    destruct v as [q|]; [|discriminate].
    apply is_positive_sub in H. now apply Qclt_not_eq in H.
Qed.

Section BreakdownFacts.

Variable expenseCategories : string -> option string.

(** X8: for category totals that are numbers, the Category Breakdown has
    one line per category, in descending order of amount, categories of
    equal amount in the order they have in the object; a line carries the
    total of its category. *)
Theorem categoryBreakdown_descending (summary : ReportSummary) :
  numbers_only (categoryTotals summary) ->
  exists sorted : list (string * number),
    Permutation sorted (entries (categoryTotals summary)) /\
    StronglySorted (fun x y => number_ge (snd x) (snd y)) sorted /\
    (forall v, filter (has_amount v) sorted
               = filter (has_amount v) (entries (categoryTotals summary))) /\
    categoryBreakdown expenseCategories (Some summary)
      = map (breakdownLine expenseCategories (totalSpent summary)) sorted /\
    map line_amount (categoryBreakdown expenseCategories (Some summary))
      = map snd sorted /\
    List.length (categoryBreakdown expenseCategories (Some summary))
      = categoriesCard (Some summary).
Proof.
  intros Hn.
  exists (breakdownOrder (Some summary)).
  assert (P : Permutation (breakdownOrder (Some summary))
                          (categoryTotals summary))
    by apply sort_Permutation.
  destruct (sort_byAmountDesc (categoryTotals summary) Hn) as [S F].
  split; [exact P|]. split; [exact S|]. split; [exact F|].
  split; [reflexivity|]. split.
  - unfold categoryBreakdown. rewrite map_map.
    apply map_ext. now intros [k a].
  - unfold categoryBreakdown. rewrite length_map.
    unfold categoriesCard, keys. rewrite length_map.
    apply Permutation_length. exact P.
Qed.

End BreakdownFacts.

(** The six categories: A and B, both 50, lead in that order. *)
Lemma breakdown_example :
  exists sorted : list (string * number),
    StronglySorted (fun x y => number_ge (snd x) (snd y)) sorted /\
    map line_amount
        (categoryBreakdown Demo.expenseCategories Demo.sixCategories)
      = map snd sorted.
Proof.
  destruct (categoryBreakdown_descending Demo.expenseCategories
              {| totalSpent := of_Z 119;
                 categoryTotals := categoryTotals_or_empty Demo.sixCategories;
                 dailyTotals := dailyTotals_or_empty Demo.sixCategories;
                 transactionCount := 6;
                 averageTransaction := Fin (Q_ 119 / Q_ 6) |})
    as (sorted & _ & S & _ & _ & A & _).
  - repeat constructor; discriminate.
  - exists sorted. split; [exact S | exact A].
Defined.

(* ================================================================= *)
(** ** More on the state of the page *)

Lemma Period_eqb_eq (p q : Period) : Period_eqb p q = true <-> p = q.
Proof. destruct p, q; cbn; split; congruence. Qed.

Section PageFacts.

Variable Budget : Type.
Variable toLocaleDateString : string -> string.
Variable expenseCategories : string -> option string.
Variable getDateRange : Date -> Period -> DateRange.
Variable toISODate : Date -> string.
Variable userProfile : UserProfile.
Variable notes : Expense -> option string.

(** A fetch has five ways to end; each of them is one of these three. *)
Lemma fetchReportData_cases (seen s : State Budget) (now : Date)
      (api : Api Budget) :
  (exists es bs,
     fetchReportData toLocaleDateString getDateRange toISODate userProfile
                     seen now api s
     = mkState false (period s) (customDate s) es bs
               (Some (processReportData toLocaleDateString es)) (error s)) \/
  (exists err,
     fetchReportData toLocaleDateString getDateRange toISODate userProfile
                     seen now api s
     = mkState false (period s) (customDate s) (expenses s) (budgets s)
               (reportData s) (Some err)).
Proof.
  unfold fetchReportData.
  destruct (is_custom (period seen) && negb (both_set (customDate seen))).
  { left. exists [], []. reflexivity. }
  destruct (startDate _) as [from|]; [|right; eexists; reflexivity].
  destruct (endDate _) as [to|]; [|right; eexists; reflexivity].
  destruct (getExpenses api _ _) as [es|err];
    [|right; eexists; reflexivity].
  destruct (getBudgets api) as [bs|err]; [|right; eexists; reflexivity].
  left. exists (or_empty es), (or_empty bs). reflexivity.
Qed.

(** What an event may change: it may replace the selection, and it may
    run a fetch or not. *)
Lemma step_cases (s : State Budget) (ev : Event Budget) :
  exists p cd,
    step toLocaleDateString getDateRange toISODate userProfile s ev
      = setCustomDate cd (setPeriod p s) \/
    exists seen now api,
      step toLocaleDateString getDateRange toISODate userProfile s ev
      = fetchReportData toLocaleDateString getDateRange toISODate
          userProfile seen now api (setCustomDate cd (setPeriod p s)).
Proof.
  destruct s as [l p cd es bs rd er].
  destruct ev as [q now api | v | v | now api | now api]; cbn [step].
  - unfold periodEffect, setPeriod, setCustomDate.
    destruct q;
      cbn [is_custom negb period customDate loading expenses budgets
           reportData error];
      destruct (Period_eqb _ p);
      try (destruct (both_set cd));
      first [ eexists _, _; left; reflexivity
            | eexists _, _; right; eexists _, _, _; reflexivity ].
  - cbn [period]. exists p. destruct (is_custom p);
      eexists; left; reflexivity.
  - cbn [period]. exists p. destruct (is_custom p);
      eexists; left; reflexivity.
  - cbn [period]. unfold handleDateSelectionComplete. cbn [period customDate].
    exists p, cd. destruct (is_custom p); cbn [andb];
      try (destruct (both_set cd));
      try (left; reflexivity); right; eexists _, _, _; reflexivity.
  - exists p, cd. right. eexists _, _, _. reflexivity.
Qed.

Lemma reachable_selection (s : State Budget) :
  reachable toLocaleDateString getDateRange toISODate userProfile s ->
  period s <> Custom ->
  customDate s = {| startDate := None; endDate := None |}.
Proof.
  induction 1 as [|s ev R IH]; [reflexivity|].
  now apply step_selection.
Qed.

Lemma reachable_summary_matches_expenses_aux (s : State Budget) :
  reachable toLocaleDateString getDateRange toISODate userProfile s ->
  (reportData s = None /\ expenses s = []) \/
  reportData s = Some (processReportData toLocaleDateString (expenses s)).
Proof.
  induction 1 as [|s ev R IH]; [left; split; reflexivity|].
  destruct (step_cases s ev) as (p & cd & [-> | (seen & now & api & ->)]).
  - exact IH.
  - destruct (fetchReportData_cases seen
                (setCustomDate cd (setPeriod p s)) now api)
      as [(es & bs & ->) | (err & ->)].
    + right. reflexivity.
    + exact IH.
Qed.

(** X9: in every reachable state the summary on display is the aggregate
    of the expenses the page holds (or, before the first fetch has
    settled, there is neither).  A failed fetch keeps both, a fetch that
    answers or is skipped replaces both. *)
Theorem reachable_summary_matches_expenses (s : State Budget) :
  reachable toLocaleDateString getDateRange toISODate userProfile s ->
  (reportData s = None /\ expenses s = []) \/
  reportData s = Some (processReportData toLocaleDateString (expenses s)).
Proof. apply reachable_summary_matches_expenses_aux. Qed.

(** X10: in a reachable state whose period is not custom, choosing the
    custom period changes the period and nothing else: nothing is
    fetched, and the expenses and the summary of the period left behind
    stay on the page. *)
Theorem selecting_custom_fetches_nothing (s : State Budget) (now : Date)
        (api : Api Budget) :
  reachable toLocaleDateString getDateRange toISODate userProfile s ->
  period s <> Custom ->
  step toLocaleDateString getDateRange toISODate userProfile s
       (selectPeriod Custom now api)
  = setPeriod Custom s.
Proof.
  intros R Hp. pose proof (reachable_selection s R Hp) as Hcd.
  cbn [step is_custom negb].
  destruct (Period_eqb Custom (period s)) eqn:E.
  - apply Period_eqb_eq in E. congruence.
  - unfold periodEffect. cbn [setPeriod period customDate is_custom negb].
    now rewrite Hcd.
Qed.

(** X11: no event of the page takes an error away: once a fetch has
    failed the error stays, also after a later fetch that answers. *)
Theorem error_is_never_cleared (s : State Budget) (ev : Event Budget) :
  error s <> None ->
  error (step toLocaleDateString getDateRange toISODate userProfile s ev)
    <> None.
Proof.
  intros He.
  destruct (step_cases s ev) as (p & cd & [-> | (seen & now & api & ->)]).
  - exact He.
  - destruct (fetchReportData_cases seen
                (setCustomDate cd (setPeriod p s)) now api)
      as [(es & bs & ->) | (err & ->)]; cbn [error]; [exact He|discriminate].
Qed.

(** X12: however a fetch ends (skipped, answered, rejected by either
    call), it ends with [loading] cleared and the selected period and
    custom dates as they were. *)
Theorem fetchReportData_settles (seen s : State Budget) (now : Date)
        (api : Api Budget) :
  loading (fetchReportData toLocaleDateString getDateRange toISODate
                           userProfile seen now api s) = false /\
  period (fetchReportData toLocaleDateString getDateRange toISODate
                          userProfile seen now api s) = period s /\
  customDate (fetchReportData toLocaleDateString getDateRange toISODate
                              userProfile seen now api s) = customDate s.
Proof.
  destruct (fetchReportData_cases seen s now api)
    as [(es & bs & ->) | (err & ->)]; repeat split.
Qed.


(** X14: in every reachable state the CSV export has nothing to export
    exactly when the page shows no charts; otherwise it hands over one
    row per expense, in their order, as many as the Transactions card
    counts. *)
Theorem exportToCSVReport_rows (s : State Budget) (now : Date) :
  reachable toLocaleDateString getDateRange toISODate userProfile s ->
  (exportToCSVReport expenseCategories toISODate notes s now
     = nothingToExport
   <-> chartsShown (expenses s) = false) /\
  (forall csvData filename,
     exportToCSVReport expenseCategories toISODate notes s now
       = exportToCSV csvData filename ->
     map csv_Amount csvData = map amount (expenses s) /\
     map csv_Date csvData = map date (expenses s) /\
     option_map transactionCount (reportData s)
       = Some (List.length csvData)).
Proof.
  intros R. unfold exportToCSVReport, chartsShown.
  pose proof (reachable_summary_matches_expenses_aux s R) as M.
  destruct (expenses s) as [|e es] eqn:E.
  - split; [split; reflexivity|]. intros ? ? H. discriminate H.
  - split; [split; intros H; discriminate H|].
    intros csvData filename H. injection H as <- _.
    split; [|split].
    + change (map csv_Amount
                (map (csvRow expenseCategories notes) (e :: es))
              = map amount (e :: es)).
      rewrite map_map. reflexivity.
    + change (map csv_Date
                (map (csvRow expenseCategories notes) (e :: es))
              = map date (e :: es)).
      rewrite map_map. reflexivity.
    + destruct M as [[_ M] | ->]; [discriminate M|].
      cbn [option_map transactionCount List.length]. now rewrite length_map.
Qed.

End PageFacts.

Lemma summary_matches_example :
  (reportData Demo.afterFailedFetch = None /\
   expenses Demo.afterFailedFetch = []) \/
  reportData Demo.afterFailedFetch
  = Some (Demo.aggregate (expenses Demo.afterFailedFetch)).
Proof.
  apply (reachable_summary_matches_expenses Demo.Budget enUS_dateString
           Demo.getDateRange Demo.toISODate Demo.userProfile).
  repeat apply reachable_step. apply reachable_initial.
Defined.

(** The first fetch has answered; the user turns to the custom period. *)
Lemma selecting_custom_example :
  Demo.step' Demo.afterFirstFetch (selectPeriod Custom Demo.now Demo.offline)
  = setPeriod Custom Demo.afterFirstFetch.
Proof.
  apply (selecting_custom_fetches_nothing Demo.Budget enUS_dateString
           Demo.getDateRange Demo.toISODate Demo.userProfile).
  - repeat apply reachable_step. apply reachable_initial.
  - intros H. vm_compute in H. discriminate.
Defined.

(** A fetch fails, the next one answers: the error is still there. *)
Lemma error_stays_example :
  error (Demo.step' Demo.afterFailedFetch
           (dataChanged Demo.now (Demo.answering [Demo.coffee])))
  <> None.
Proof.
  apply (error_is_never_cleared Demo.Budget enUS_dateString
           Demo.getDateRange Demo.toISODate Demo.userProfile).
  intros H. vm_compute in H. discriminate.
Defined.


Lemma csv_rows_example :
  exportToCSVReport Demo.expenseCategories Demo.toISODate Demo.notes
                    Demo.afterFirstFetch Demo.now
    = nothingToExport
  <-> chartsShown (expenses Demo.afterFirstFetch) = false.
Proof.
  apply (exportToCSVReport_rows Demo.Budget enUS_dateString
           Demo.expenseCategories Demo.getDateRange Demo.toISODate
           Demo.userProfile Demo.notes).
  repeat apply reachable_step. apply reachable_initial.
Defined.

(* ================================================================= *)
(** ** More on the document *)

(** *** The rows that are printed *)

Lemma printedAmounts_draw (d : Draw) (l : Layout) :
  printedAmounts (pdf (draw d l)) =
  (printedAmounts (pdf l) ++
     match d with
     | text (AmountCell raw) _ _ => [raw]
     | _ => []
     end)%list.
Proof.
  unfold printedAmounts, draw. cbn [pdf calls].
  rewrite flat_map_app. cbn [flat_map snd]. now rewrite app_nil_r.
Qed.

Ltac printed :=
  unfold seq, atY, advance, setY, skip;
  repeat (progress (cbn [pdf yPos pageCount calls];
                    rewrite ?printedAmounts_draw, ?app_nil_r)).

Lemma breakIfPast270_printed (l : Layout) :
  printedAmounts (pdf (breakIfPast270 l)) = printedAmounts (pdf l).
Proof.
  destruct (breakIfPast270_cases l) as [[H ->] | [H ->]]; reflexivity.
Qed.

Lemma map_flat_map {A B C} (f : B -> C) (g : A -> list B) (l : list A) :
  map f (flat_map g l) = flat_map (fun x => map f (g x)) l.
Proof.
  induction l as [|x l IH]; trivial.
  cbn [flat_map]. now rewrite map_app, IH.
Qed.

Lemma flat_map_fst {A B C} (g : A -> list C) (l : list (A * B)) :
  flat_map (fun e => g (fst e)) l = flat_map g (map fst l).
Proof.
  induction l as [|x l IH]; trivial.
  cbn [flat_map map]. now rewrite IH.
Qed.

Lemma flat_map_ext_In {A B} (f g : A -> list B) (l : list A) :
  (forall x, In x l -> f x = g x) -> flat_map f l = flat_map g l.
Proof.
  induction l as [|x l IH]; intros H; trivial.
  cbn [flat_map]. rewrite (H x (or_introl eq_refl)), IH; trivial.
  intros y Hy. apply H. now right.
Qed.

Lemma filter_split_Permutation {A} (p : A -> bool) (l : list A) :
  Permutation (filter p l ++ filter (fun x => negb (p x)) l) l.
Proof.
  induction l as [|x l IH]; [constructor|].
  cbn [filter]. destruct (p x); cbn [negb app].
  - now constructor.
  - symmetry. apply Permutation_cons_app. now symmetry.
Qed.

(** Going through distinct keys that cover the records, and taking at
    each key the records filed under it, takes every record once. *)
Lemma records_by_key (key : Expense -> string) (ks : list string)
      (es : list Expense) :
  NoDup ks ->
  (forall e, In e es -> In (key e) ks) ->
  Permutation
    (flat_map (fun k => filter (fun e => String.eqb (key e) k) es) ks) es.
Proof.
  intros N. revert es. induction N as [|k ks Hk N IH]; intros es Hes.
  - destruct es as [|e es]; [constructor|].
    destruct (Hes e (or_introl eq_refl)).
  - cbn [flat_map].
    set (rest := filter (fun e => negb (String.eqb (key e) k)) es).
    rewrite (flat_map_ext_In _
               (fun k' => filter (fun e => String.eqb (key e) k') rest)).
    + rewrite (IH rest).
      * apply filter_split_Permutation.
      * intros e He. subst rest. apply filter_In in He.
        destruct He as [He Hne]. destruct (Hes e He) as [E | H]; trivial.
        rewrite <- E, String.eqb_refl in Hne. discriminate.
    + intros k' Hk'. subst rest. rewrite filter_both.
      apply filter_ext. intros e.
      destruct (String.eqb_spec (key e) k') as [E|]; [|now rewrite andb_false_r].
      rewrite andb_true_r.
      destruct (String.eqb_spec (key e) k) as [E'|]; trivial.
      subst. contradiction.
Qed.

Section PrintedFacts.

Variable Budget : Type.
Variable toLocaleDateString : string -> string.
Variable expenseCategories : string -> option string.
Variable getDateRange : Date -> Period -> DateRange.
Variable toISODate : Date -> string.
Variable pageWidth : Qc.
Variable userProfile : UserProfile.

Lemma writeRows_printed (rows : list Expense) (l : Layout) :
  printedAmounts (pdf (writeRows pageWidth rows l))
  = (printedAmounts (pdf l) ++ map amount rows)%list.
Proof.
  revert l. induction rows as [|exp rows IH]; intros l.
  - cbn. now rewrite app_nil_r.
  - rewrite writeRows_cons, IH. cbn [map].
    unfold writeRow. unfold seq at 1 5. rewrite breakIfPast270_printed.
    unfold when. printed. destruct (banded (yPos l)); printed;
      rewrite <- app_assoc; reflexivity.
Qed.

Lemma writeCategory_printed (expenses : list Expense)
      (entry : string * number) (l : Layout) :
  printedAmounts
    (pdf (writeCategory expenseCategories pageWidth expenses entry l))
  = (printedAmounts (pdf l)
       ++ map amount
            (filter (fun exp => String.eqb (category exp) (fst entry))
                    expenses))%list.
Proof.
  destruct entry as [cat total]. unfold writeCategory.
  rewrite !seq_apply, breakIfPast270_printed.
  change (printedAmounts (pdf (advance 10 ?x)))
    with (printedAmounts (pdf x)).
  rewrite writeRows_printed. f_equal.
  unfold categoryHeader. printed. reflexivity.
Qed.

Lemma writeCategories_printed (expenses : list Expense)
      (categoryTotals : object number) (l : Layout) :
  printedAmounts
    (pdf (writeCategories expenseCategories pageWidth expenses
                          categoryTotals l))
  = (printedAmounts (pdf l)
       ++ flat_map
            (fun entry =>
               map amount
                   (filter (fun exp => String.eqb (category exp) (fst entry))
                           expenses))
            (entries categoryTotals))%list.
Proof.
  unfold writeCategories, entries. revert l.
  induction categoryTotals as [|entry rest IH]; intros l.
  - cbn. now rewrite app_nil_r.
  - cbn [fold_left flat_map].
    rewrite IH, writeCategory_printed, <- app_assoc. reflexivity.
Qed.

Lemma titleBlock_printed (logoWidth logoHeight : Qc) (l : Layout) :
  printedAmounts (pdf (titleBlock pageWidth logoWidth logoHeight l))
  = printedAmounts (pdf l).
Proof. unfold titleBlock. printed. reflexivity. Qed.

Lemma periodBlock_printed (p : Period) (from to : Date) (l : Layout) :
  printedAmounts (pdf (periodBlock p from to l)) = printedAmounts (pdf l).
Proof. unfold periodBlock. printed. reflexivity. Qed.

Lemma heading_printed (title : string) (l : Layout) :
  printedAmounts (pdf (heading pageWidth title l)) = printedAmounts (pdf l).
Proof. unfold heading. printed. reflexivity. Qed.

Lemma summaryBox_printed (reportData : ReportData) (l : Layout) :
  printedAmounts (pdf (summaryBox pageWidth reportData l))
  = printedAmounts (pdf l).
Proof. unfold summaryBox. printed. reflexivity. Qed.

(** X17: when the summary is the aggregate of the expenses held, as it
    is in every reachable state, and the categories are plain keys, the
    table rows of an exported document are the expenses, each printed
    once: category by category in the order the categories first appear,
    and within a category in the order of the records. *)
Theorem exportToPDF_prints_every_expense (s : State Budget) (now : Date)
        (platform : Platform) (width height : positive) (doc : Pdf)
        (d : Delivery) :
  Forall (fun e => plain_key (category e) = true) (expenses s) ->
  reportData s
    = Some (processReportData toLocaleDateString (expenses s)) ->
  exportToPDF expenseCategories getDateRange toISODate pageWidth
              userProfile s now platform (loaded width height)
    = Some (exported doc d) ->
  printedAmounts doc
    = map amount
        (flat_map
           (fun k => filter (fun exp => String.eqb (category exp) k)
                            (expenses s))
           (first_seen (map category (expenses s)))) /\
  Permutation (printedAmounts doc) (map amount (expenses s)).
Proof.
  intros _ Hr H. apply exported_document in H. destruct H as (from & to & ->).
  rewrite writeCategories_printed, !seq_apply.
  rewrite heading_printed, summaryBox_printed, heading_printed,
          periodBlock_printed, titleBlock_printed.
  change (printedAmounts (pdf {| pdf := new_jsPDF; yPos := Q_ 20 |}))
    with (@nil string).
  cbn [app]. rewrite Hr. cbn [categoryTotals_or_empty]. unfold entries.
  rewrite (flat_map_fst
             (fun k => map amount
                           (filter (fun exp => String.eqb (category exp) k)
                                   (expenses s)))).
  fold (keys (categoryTotals
                (processReportData toLocaleDateString (expenses s)))).
  rewrite categoryTotals_is_bumpAll, keys_bumpAll.
  cbn [keys map app]. rewrite filter_keep_all by reflexivity.
  rewrite <- map_flat_map. split; [reflexivity|].
  apply Permutation_map. apply records_by_key.
  - apply first_seen_NoDup.
  - intros e He. apply first_seen_In, in_map. exact He.
Qed.

(** X19: under the custom period with a date missing, the load handler
    gives up at the period line: the document has the logo and the title
    and nothing more, and no file is delivered. *)
Theorem exportToPDF_incomplete_custom_range (s : State Budget) (now : Date)
        (platform : Platform) (width height : positive) :
  period s = Custom ->
  both_set (customDate s) = false ->
  exists doc,
    exportToPDF expenseCategories getDateRange toISODate pageWidth
                userProfile s now platform (loaded width height)
      = Some (thrown doc) /\
    List.length (calls doc) = 2%nat /\
    pageCount doc = 1%nat.
Proof.
  intros Hp Hb.
  unfold exportToPDF, fire, onload, option_map, onloadHandler.
  destruct (logoSize width height) as [lw lh].
  unfold exportDateRange. rewrite Hp. cbn [is_all is_custom].
  unfold both_set in Hb. cbn [startDate endDate].
  destruct (startDate (customDate s)), (endDate (customDate s));
    try discriminate;
    (eexists; split; [reflexivity|]; split; reflexivity).
Qed.

End PrintedFacts.

(** X18: the logo is drawn within 40 by 40 and fills it one way: neither
    side exceeds 40, and the width is 40 when the image is wider than high,
    the height otherwise. *)
Theorem logoSize_fits (width height : positive) :
  fst (logoSize width height) <= Q_ 40 /\
  snd (logoSize width height) <= Q_ 40 /\
  (fst (logoSize width height) = Q_ 40 \/
   snd (logoSize width height) = Q_ 40) /\
  (if (height <? width)%positive
   then fst (logoSize width height) = Q_ 40
   else snd (logoSize width height) = Q_ 40).
Proof.
  pose proof (logoSize_height width height) as [_ Hh].
  assert (Hhp : (0 < inject_Z (Z.pos height))%Q)
    by (unfold inject_Z, Qlt; simpl; lia).
  assert (Hwp : (0 < inject_Z (Z.pos width))%Q)
    by (unfold inject_Z, Qlt; simpl; lia).
  split; [|split; [exact Hh|split]].
  - unfold logoSize.
    destruct (Qclt_le_dec (Q_ (Z.pos height)) (Q_ (Z.pos width))) as [L|L];
      cbn [fst]; [qc_lra|].
    unfold Qcle in *. rewrite this_mult, this_div, !this_Q_ in *.
    set (h := inject_Z (Z.pos height)) in *.
    set (w := inject_Z (Z.pos width)) in *.
    assert (D1 : (w / h <= 1)%Q) by (apply Qle_shift_div_r; lra).
    unfold inject_Z. lra.
  - unfold logoSize.
    destruct (Qclt_le_dec (Q_ (Z.pos height)) (Q_ (Z.pos width)));
      cbn [fst snd]; auto.
  - unfold logoSize.
    destruct (Qclt_le_dec (Q_ (Z.pos height)) (Q_ (Z.pos width))) as [L|L];
      cbn [fst snd];
      destruct (Pos.ltb_spec height width) as [C|C]; trivial; exfalso.
    + unfold Qclt in L. rewrite !this_Q_ in L.
      unfold Qlt, inject_Z in L. cbn in L. lia.
    + unfold Qcle in L. rewrite !this_Q_ in L.
      unfold Qle, inject_Z in L. cbn in L. lia.
Qed.

(** Two coffees and a bus fare on display: the document prints the three. *)
Lemma every_expense_printed_example :
  Permutation
    (printedAmounts
       (Demo.document (Demo.showing [Demo.coffee; Demo.bus; Demo.coffee])
                      (loaded 40 40)))
    (map amount [Demo.coffee; Demo.bus; Demo.coffee]).
Proof.
  refine (proj2 (exportToPDF_prints_every_expense Demo.Budget enUS_dateString
    Demo.expenseCategories Demo.getDateRange Demo.toISODate Demo.pageWidth
    Demo.userProfile (Demo.showing [Demo.coffee; Demo.bus; Demo.coffee])
    Demo.now Demo.browser 40%positive 40%positive _
    (saved "finsight-report-month.pdf") _ _ _)).
  - repeat constructor.
  - reflexivity.
  - vm_compute. reflexivity.
Defined.

(** The custom period with a start date and no end date. *)
Lemma incomplete_custom_export_example :
  exists doc,
    exportToPDF Demo.expenseCategories Demo.getDateRange Demo.toISODate
      Demo.pageWidth Demo.userProfile
      (setCustomDate {| startDate := Some date_2000_01_01; endDate := None |}
         (setPeriod Custom (Demo.showing [Demo.coffee])))
      Demo.now Demo.browser (loaded 40 40)
    = Some (thrown doc) /\
    List.length (calls doc) = 2%nat /\
    pageCount doc = 1%nat.
Proof.
  apply (exportToPDF_incomplete_custom_range Demo.Budget
           Demo.expenseCategories Demo.getDateRange Demo.toISODate
           Demo.pageWidth Demo.userProfile); reflexivity.
Defined.

(** The document of forty-three items and one: the last row, at 294, is
    the lowest. *)
Lemma rows_within_294_example :
  Forall (fun r => snd r <= Q_ 294)
    (rowCursors
       (Demo.document
          (Demo.showing (Demo.items "A" 43 ++ Demo.items "B" 1)%list)
          (loaded 40 40))).
Proof.
  refine (exported_rows_within_294 Demo.Budget Demo.expenseCategories
    Demo.getDateRange Demo.toISODate Demo.pageWidth Demo.userProfile
    (Demo.showing (Demo.items "A" 43 ++ Demo.items "B" 1)%list)
    Demo.now Demo.browser 40%positive 40%positive _
    (saved "finsight-report-month.pdf") _).
  vm_compute. reflexivity.
Defined.

Lemma sections_follow_entries_example :
  sectionOrder
    (Demo.document (Demo.showing Demo.smallThenLarge) (loaded 40 40))
  = map (fun e => (categoryName Demo.expenseCategories (fst e), snd e))
        (entries (categoryTotals_or_empty
                    (reportData (Demo.showing Demo.smallThenLarge)))).
Proof.
  refine (exportToPDF_sections_follow_entries Demo.Budget
    Demo.expenseCategories Demo.getDateRange Demo.toISODate Demo.pageWidth
    Demo.userProfile (Demo.showing Demo.smallThenLarge)
    Demo.now Demo.browser 40%positive 40%positive _
    (saved "finsight-report-month.pdf") _).
  vm_compute. reflexivity.
Defined.

(* ================================================================= *)
(** ** The category chart and what the page shows *)

Lemma map_Some_inj {A} (l1 l2 : list A) :
  map Some l1 = map Some l2 -> l1 = l2.
Proof.
  revert l2. induction l1 as [|x l1 IH]; intros [|y l2] H;
    try discriminate; trivial.
  cbn [map] in H. injection H as -> H. f_equal. now apply IH.
Qed.


Section CategoryChartFacts.

Variable Budget : Type.
Variable toLocaleDateString : string -> string.
Variable expenseCategories : string -> option string.
Variable getDateRange : Date -> Period -> DateRange.
Variable toISODate : Date -> string.
Variable userProfile : UserProfile.

(** X20: for records that all parse and whose categories are plain keys,
    the category chart has one slice per category, in the order the
    categories first appear; a slice is labelled with the name of its
    category and holds the sum of the amounts of the records of that
    category. *)
Theorem getCategoryChartData_slices (es : list Expense) :
  Forall (fun e => plain_key (category e) = true) es ->
  Forall parsable es ->
  labels (getCategoryChartData expenseCategories
            (Some (processReportData toLocaleDateString es)))
    = map (categoryName expenseCategories)
          (first_seen (map category es)) /\
  data (getCategoryChartData expenseCategories
          (Some (processReportData toLocaleDateString es)))
    = map (fun k => sum_numbers (amounts_under category k es))
          (first_seen (map category es)).
Proof.
  intros _ Hes. unfold getCategoryChartData.
  cbn [labels data categoryTotals_or_empty].
  set (o := categoryTotals (processReportData toLocaleDateString es)).
  assert (K : keys o = first_seen (map category es)).
  { subst o. rewrite categoryTotals_is_bumpAll, keys_bumpAll.
    cbn [keys map app]. apply filter_keep_all. reflexivity. }
  split; [now rewrite K|].
  apply map_Some_inj.
  rewrite <- get_at_keys by (rewrite K; apply first_seen_NoDup).
  rewrite K, map_map. apply map_ext_in. intros k Hk.
  subst o. rewrite categoryTotals_is_bumpAll.
  rewrite get_bumpAll by (trivial; constructor).
  assert (M : mentions category k es = true).
  { apply first_seen_In, in_map_iff in Hk. destruct Hk as (e & <- & He).
    unfold mentions. apply existsb_exists. exists e. split; trivial.
    apply String.eqb_refl. }
  rewrite M. cbn [get or_default]. now rewrite add_zero_l.
Qed.


End CategoryChartFacts.

Lemma category_chart_example :
  labels (getCategoryChartData Demo.expenseCategories
            (Some (Demo.aggregate [Demo.coffee; Demo.bus; Demo.coffee])))
  = map (categoryName Demo.expenseCategories)
        (first_seen (map category [Demo.coffee; Demo.bus; Demo.coffee])).
Proof.
  apply (getCategoryChartData_slices enUS_dateString Demo.expenseCategories
           [Demo.coffee; Demo.bus; Demo.coffee]).
  - repeat constructor.
  - repeat constructor; vm_compute; discriminate.
Defined.

